(** * Yogi voice assistant: the local tools of [tools.py]

    A shallow embedding of the tool functions of [tools.py] that work on
    local state: the JSON task and note stores, the natural-language path
    resolver, the file search with its guarded read, and the password
    generator.

    Conventions.
    - A Python [str] is a [string]; a character is a code point below 256.
      The texts that pass through the JSON stores are [PyText.text], which
      can also hold a lone surrogate.
    - A tool either returns a string or lets an exception escape: [Outcome].
    - The disk, the operating system and the random source are explicit
      arguments; a tool that writes returns the new disk. *)

From Stdlib Require Import String Ascii List Bool Arith ZArith Lia.
From Stdlib Require Import Decimal DecimalString.
Import ListNotations.
Open Scope string_scope.
Open Scope nat_scope.

(** ** Python strings *)

Module PyStr.

(** The newline character, written "\n" in the source. *)
Definition nl : string := String (ascii_of_nat 10) EmptyString.

(** The double quote character. *)
Definition dquote : string := String (ascii_of_nat 34) EmptyString.

(** [str(n)] for a natural number: its decimal digits. *)
Definition of_nat (n : nat) : string :=
  NilEmpty.string_of_uint (Nat.to_uint n).

(** [str(z)] for an integer. *)
Definition of_Z (z : Z) : string :=
  match z with
  | Z0 => "0"
  | Zpos p => of_nat (Pos.to_nat p)
  | Zneg p => "-" ++ of_nat (Pos.to_nat p)
  end.

(** [sep.join(parts)]. *)
Definition join (sep : string) (parts : list string) : string :=
  String.concat sep parts.

(** [needle in hay]: [needle] occurs at some position of [hay]. *)
Fixpoint contains (needle hay : string) : bool :=
  String.prefix needle hay
  || match hay with
     | EmptyString => false
     | String _ rest => contains needle rest
     end.

(** [c.isspace()] for a code point below 256: tab to carriage return,
    the four separators 28..31, space, NEL (133) and no-break space (160). *)
Definition isspace (c : ascii) : bool :=
  let n := nat_of_ascii c in
  ((9 <=? n) && (n <=? 13)) || ((28 <=? n) && (n <=? 32))
  || (n =? 133) || (n =? 160).

(** [c.lower()] for a code point below 256: A..Z and the Latin-1 capitals
    192..222 (the multiplication sign 215 apart) move up by 32. *)
Definition lower_char (c : ascii) : ascii :=
  let n := nat_of_ascii c in
  if ((65 <=? n) && (n <=? 90))
     || ((192 <=? n) && (n <=? 222) && negb (n =? 215))
  then ascii_of_nat (n + 32) else c.

(** [s.lower()]. *)
Fixpoint lower (s : string) : string :=
  match s with
  | EmptyString => EmptyString
  | String c rest => String (lower_char c) (lower rest)
  end.

(** [s.lstrip()]. *)
Fixpoint lstrip (s : string) : string :=
  match s with
  | EmptyString => EmptyString
  | String c rest => if isspace c then lstrip rest else s
  end.

(** [s.rstrip()]. *)
Fixpoint rstrip (s : string) : string :=
  match s with
  | EmptyString => EmptyString
  | String c rest =>
      match rstrip rest with
      | EmptyString => if isspace c then EmptyString else String c EmptyString
      | kept => String c kept
      end
  end.

(** [s.strip()]. *)
Definition strip (s : string) : string := rstrip (lstrip s).

(** [s[:n]]. *)
Definition take (n : nat) (s : string) : string := String.substring 0 n s.

(** [enumerate(l)]: each item with its 0-based position. *)
Definition enumerate {A : Type} (l : list A) : list (nat * A) :=
  combine (seq 0 (List.length l)) l.

(** Every character of [s] is white space. *)
Fixpoint all_space (s : string) : bool :=
  match s with
  | EmptyString => true
  | String c rest => isspace c && all_space rest
  end.

End PyStr.

(** ** The texts of the stores *)

Module PyText.

(** A character of a Python [str] as the store tools handle it: a code
    point below 256, or a lone surrogate, the code point
    D800 (hexadecimal) + 256 * [page] + [low] with [page] below 8.
    [json.load] yields a lone surrogate for an escape such as \ud800, and
    a caller can pass one; UTF-8 cannot encode it.  Other code points are
    left out. *)
Inductive char : Type :=
| Latin (c : ascii)
| Surrogate (page : bool * bool * bool) (low : ascii).

(** A Python [str]. *)
Definition text : Type := list char.

(** The [str] of a literal of the source. *)
Definition lit (s : string) : text := map Latin (list_ascii_of_string s).

(** [a + b]. *)
Definition cat (a b : text) : text := (a ++ b)%list.

Definition nl : text := lit PyStr.nl.

(** [str(n)] for a natural number. *)
Definition of_nat (n : nat) : text := lit (PyStr.of_nat n).

(** [sep.join(parts)]. *)
Fixpoint join (sep : text) (parts : list text) : text :=
  match parts with
  | [] => []
  | [x] => x
  | x :: rest => cat x (cat sep (join sep rest))
  end.

(** [c.isspace()]: no surrogate is white space. *)
Definition isspace (c : char) : bool :=
  match c with
  | Latin a => PyStr.isspace a
  | Surrogate _ _ => false
  end.

(** [s.lstrip()]. *)
Fixpoint lstrip (s : text) : text :=
  match s with
  | [] => []
  | c :: rest => if isspace c then lstrip rest else s
  end.

(** [s.rstrip()]. *)
Fixpoint rstrip (s : text) : text :=
  match s with
  | [] => []
  | c :: rest =>
      match rstrip rest with
      | [] => if isspace c then [] else [c]
      | kept => c :: kept
      end
  end.

(** The character can be written to a file opened with
    [encoding="utf-8"]: every code point but a surrogate. *)
Definition encodable_char (c : char) : bool :=
  match c with
  | Latin _ => true
  | Surrogate _ _ => false
  end.

(** [s.encode("utf-8")] does not raise. *)
Definition encodable (s : text) : bool := forallb encodable_char s.

End PyText.

(** ** Results of a tool call *)

(** The exceptions that the modelled tools can let escape. *)
Inductive PyExc : Type :=
| AttributeError (what : string)
| TypeError (what : string)
| KeyError (what : string).

(** What the runtime sees of a tool call. *)
Inductive Outcome : Type :=
| Returned (answer : PyText.text)
| Raised (e : PyExc).

(** ** The JSON stores: [todo.json] and [notes.json] *)

(** The value [json.load] hands back.  The tools append to it, index it,
    test its truth value and iterate over it, so the model keeps what those
    uses see:
    - an array of strings, the only thing [json.dump] is ever given here;
    - an object, of which iteration yields the keys in order;
    - an integer number.
    Other documents (null, booleans, strings, fractions, arrays with other
    elements) are left out. *)
Inductive Json : Type :=
| JArray (items : list PyText.text)
| JObject (keys : list PyText.text)
| JNumber (n : Z).

(** What the bytes of a store file amount to when the file is opened as
    UTF-8 text and given to [json.load]:
    - [Undecodable]: the bytes are not UTF-8, reading raises
      [UnicodeDecodeError];
    - [Malformed]: text that is not JSON, [json.load] raises
      [json.JSONDecodeError];
    - [Document v]: a JSON text, [json.load] returns [v]. *)
Inductive FileBody : Type :=
| Undecodable (raw : list Byte.byte)
| Malformed (text : string)
| Document (v : Json).

(** One store file with the access rights the process has on it.
    [body = None]: [os.path.exists] is false.
    [readable = false]: [open(..., "r")] raises.
    [writable = false]: [open(..., "w")] raises and nothing is written. *)
Record Disk : Type := mkDisk {
  body : option FileBody;
  readable : bool;
  writable : bool
}.

Definition set_body (d : Disk) (b : FileBody) : Disk :=
  {| body := Some b; readable := readable d; writable := writable d |}.

Module Dump.

Definition backslash : string := String (ascii_of_nat 92) EmptyString.

(** The digit of [n], below 16, in lower-case hexadecimal. *)
Definition hex_digit (n : nat) : string :=
  String.substring n 1 "0123456789abcdef".

(** What the string encoder of [json] writes for one character when
    [ensure_ascii] is false: the short escapes, the escape u00XX for the
    other control characters, and every other character as it is. *)
Definition escape (c : ascii) : string :=
  let n := nat_of_ascii c in
  if n =? 34 then backslash ++ PyStr.dquote
  else if n =? 92 then backslash ++ backslash
  else if n =? 10 then backslash ++ "n"
  else if n =? 13 then backslash ++ "r"
  else if n =? 9 then backslash ++ "t"
  else if n =? 8 then backslash ++ "b"
  else if n =? 12 then backslash ++ "f"
  else if n <? 32
  then backslash ++ "u00" ++ hex_digit (n / 16) ++ hex_digit (n mod 16)
  else String c EmptyString.

Fixpoint escaped (t : PyText.text) : string :=
  match t with
  | [] => ""
  | PyText.Latin c :: rest => escape c ++ escaped rest
  | PyText.Surrogate _ _ :: rest => escaped rest
  end.

(** The JSON string literal of a text that can be encoded. *)
Definition literal (t : PyText.text) : string :=
  PyStr.dquote ++ escaped t ++ PyStr.dquote.

(** [json.dump(items, f, indent=2)] writes a non-empty list in chunks,
    one per item: the opening bracket or the comma, a newline, two
    spaces, and the item.  The chunk of an item that cannot be encoded
    raises in [f.write] and nothing of it is written.  [written_before]
    is the text of the chunks before that one. *)
Fixpoint written_before (first : bool) (items : list PyText.text) : string :=
  match items with
  | [] => ""
  | t :: rest =>
      if PyText.encodable t
      then (if first then "[" else ",") ++ PyStr.nl ++ "  " ++ literal t
           ++ written_before false rest
      else ""
  end.

End Dump.

(** [save_tasks(tasks)] and [save_notes(notes)]: the file is opened for
    writing, which empties it, and [json.dump] writes the list; any
    exception is logged and swallowed.
    - When the file cannot be opened, nothing changes.
    - When every item can be encoded, the file holds the list.
    - When an item cannot be encoded, the dump raises at that item: the
      file keeps the chunks written before it, an array that is not
      closed, which is not JSON. *)
Definition save_store (items : list PyText.text) (d : Disk) : Disk :=
  if writable d then
    if forallb PyText.encodable items
    then set_body d (Document (JArray items))
    else set_body d (Malformed (Dump.written_before true items))
  else d.

(** [load_tasks()] and [load_notes()]: the loaded value and the disk
    afterwards.
    - no file: the empty list;
    - [json.JSONDecodeError]: the file is reset through the save function
      and the empty list is returned;
    - any other exception: the empty list, nothing written. *)
Definition load_store (d : Disk) : Json * Disk :=
  match body d with
  | None => (JArray [], d)
  | Some b =>
      if readable d then
        match b with
        | Document v => (v, d)
        | Malformed _ => (JArray [], save_store [] d)
        | Undecodable _ => (JArray [], d)
        end
      else (JArray [], d)
  end.

(** The content of the file is a JSON text. *)
Definition is_json (b : FileBody) : bool :=
  match b with
  | Document _ => true
  | Undecodable _ | Malformed _ => false
  end.

(** The file holds the empty JSON array. *)
Definition holds_empty_array (d : Disk) : Prop :=
  body d = Some (Document (JArray [])).

Module Tasks.
Import PyText.

Definition load_tasks := load_store.
Definition save_tasks := save_store.

(** [f"{i+1}. {t}"]. *)
Definition line (i : nat) (t : text) : text :=
  cat (of_nat (i + 1)) (cat (lit ". ") t).

Definition lines (ts : list text) : list text :=
  map (fun it => line (fst it) (snd it)) (PyStr.enumerate ts).

(** [async def add_task(context, task)]. *)
Definition add_task (task : text) (d : Disk) : Outcome * Disk :=
  let '(tasks, d1) := load_tasks d in
  match tasks with
  | JArray items =>
      (Returned (cat (lit "Task added: ") task),
       save_tasks (items ++ [task])%list d1)
  | JObject _ =>
      (Raised (AttributeError "'dict' object has no attribute 'append'"), d1)
  | JNumber _ =>
      (Raised (AttributeError "'int' object has no attribute 'append'"), d1)
  end.

(** [async def list_tasks(context)].  [not tasks] holds of the empty
    array, the empty object and zero.  Iterating over an object yields its
    keys; a number is not iterable. *)
Definition list_tasks (d : Disk) : Outcome * Disk :=
  let '(tasks, d1) := load_tasks d in
  match tasks with
  | JArray [] | JObject [] | JNumber Z0 =>
      (Returned (lit "No tasks in the list."), d1)
  | JArray items | JObject items =>
      (Returned (join nl (lines items)), d1)
  | JNumber _ =>
      (Raised (TypeError "'int' object is not iterable"), d1)
  end.

(** [async def clear_tasks(context)]. *)
Definition clear_tasks (d : Disk) : Outcome * Disk :=
  (Returned (lit "All tasks cleared."), save_tasks [] d).

(** A call of one of the three task tools. *)
Inductive Op : Type :=
| Add (task : text)
| List
| Clear.

Definition call (o : Op) (d : Disk) : Outcome * Disk :=
  match o with
  | Add t => add_task t d
  | List => list_tasks d
  | Clear => clear_tasks d
  end.

(** The disk after a sequence of calls, oldest first. *)
Definition run (ops : list Op) (d : Disk) : Disk :=
  fold_left (fun acc o => snd (call o acc)) ops d.

(** The store is empty: there is no file, or the file holds []. *)
Definition empty_store (d : Disk) : Prop :=
  body d = None \/ body d = Some (Document (JArray [])).

(** The tasks a sequence of calls leaves behind, read off the calls alone:
    an add puts its task last, a clear drops everything, a listing changes
    nothing. *)
Definition pending (ops : list Op) (before : list text) : list text :=
  fold_left
    (fun acc o =>
       match o with
       | Add t => (acc ++ [t])%list
       | List => acc
       | Clear => []
       end) ops before.

(** What a listing of the tasks [ts] is expected to read. *)
Definition listing (ts : list text) : text :=
  match ts with
  | [] => lit "No tasks in the list."
  | _ => join nl (lines ts)
  end.

(** The file holds the tasks [ts]; no file stands for no tasks. *)
Definition holds (d : Disk) (ts : list text) : Prop :=
  body d = Some (Document (JArray ts)) \/ (ts = [] /\ body d = None).

(** Every task that the calls add can be encoded. *)
Definition encodable_op (o : Op) : bool :=
  match o with
  | Add t => encodable t
  | List | Clear => true
  end.

End Tasks.

Module Notes.
Import PyText.

Definition load_notes := load_store.
Definition save_notes := save_store.

(** [notes[-1] = f(notes[-1])] on a list. *)
Definition update_last (f : text -> text) (items : list text)
  : list text :=
  (removelast items ++ [f (last items [])])%list.

(** [notes[-1].rstrip() + "\n" + note.lstrip()]. *)
Definition merged (note old : text) : text :=
  cat (rstrip old) (cat nl (lstrip note)).

(** [async def write_note(context, note)].  A falsy value takes the
    [else] branch and is appended to; a truthy one is indexed with [-1]. *)
Definition write_note (note : text) (d : Disk) : Outcome * Disk :=
  let '(notes, d1) := load_notes d in
  match notes with
  | JArray [] => (Returned (lit "Note added."), save_notes [note] d1)
  | JArray items =>
      (Returned (lit "Note updated."),
       save_notes (update_last (merged note) items) d1)
  | JObject [] =>
      (Raised (AttributeError "'dict' object has no attribute 'append'"), d1)
  | JObject _ => (Raised (KeyError "-1"), d1)
  | JNumber Z0 =>
      (Raised (AttributeError "'int' object has no attribute 'append'"), d1)
  | JNumber _ =>
      (Raised (TypeError "'int' object is not subscriptable"), d1)
  end.

(** [async def show_notes(context)]: the joined lines, or the fixed
    message when the joined text is empty. *)
Definition show_notes (d : Disk) : Outcome * Disk :=
  let '(notes, d1) := load_notes d in
  match notes with
  | JArray items | JObject items =>
      let shown := join nl (Tasks.lines items) in
      (Returned (match shown with
                 | [] => lit "No notes saved."
                 | _ => shown
                 end), d1)
  | JNumber _ =>
      (Raised (TypeError "'int' object is not iterable"), d1)
  end.

End Notes.

(** ** The operating system as the file tools see it *)

(** What [open(path, "r", encoding="utf-8").read()] gives. *)
Inductive ReadResult : Type :=
| ReadOk (content : string)
| ReadError (message : string).

(** The library and system calls of the file tools, as an environment.
    - [sep]: [os.sep];
    - [env_userprofile]: [os.environ.get("USERPROFILE")];
    - [home]: [os.path.expanduser("~")];
    - [login]: [os.getlogin()];
    - [fs_root]: [os.path.abspath(os.sep)];
    - [abspath], [relpath]: the functions of [os.path];
    - [walk top]: what [os.walk(top)] yields, in order, as pairs of the
      directory path and the names of its files;
    - [file_bytes path]: the bytes of the file opened in binary mode, or
      [None] when opening fails;
    - [utf8_ok bs]: [bs.decode('utf-8')] succeeds;
    - [read_text path]: the file read in text mode. *)
Record Os : Type := mkOs {
  sep : ascii;
  env_userprofile : option string;
  home : string;
  login : string;
  fs_root : string;
  abspath : string -> string;
  relpath : string -> string -> string;
  walk : string -> list (string * list string);
  file_bytes : string -> option (list Byte.byte);
  utf8_ok : list Byte.byte -> bool;
  read_text : string -> ReadResult
}.

Module Paths.

Definition starts_with (c : ascii) (s : string) : bool :=
  match s with
  | String c0 _ => Ascii.eqb c0 c
  | EmptyString => false
  end.

Fixpoint ends_with (c : ascii) (s : string) : bool :=
  match s with
  | EmptyString => false
  | String c0 EmptyString => Ascii.eqb c0 c
  | String _ rest => ends_with c rest
  end.

(** [os.path.join(a, b)] in the manner of [posixpath.join], with the
    separator of the platform: an absolute [b] replaces [a]; otherwise [b]
    is added after one separator. *)
Definition join (os : Os) (a b : string) : string :=
  if starts_with (sep os) b then b
  else if String.eqb a "" || ends_with (sep os) a then a ++ b
  else a ++ String (sep os) b.

(** [s.count(os.sep)]. *)
Fixpoint count_sep (c : ascii) (s : string) : nat :=
  match s with
  | EmptyString => 0
  | String c0 rest => (if Ascii.eqb c0 c then 1 else 0) + count_sep c rest
  end.

(** [os.environ.get("USERPROFILE") or os.path.expanduser("~")]. *)
Definition userprofile (os : Os) : string :=
  match env_userprofile os with
  | Some p => if String.eqb p "" then home os else p
  | None => home os
  end.

Definition backslash : string := String (ascii_of_nat 92) EmptyString.

(** The literals "C:\\" and "D:\\". *)
Definition c_drive : string := "C:" ++ backslash.
Definition d_drive : string := "D:" ++ backslash.

(** The dict [mappings], in insertion order. *)
Definition mappings (os : Os) : list (string * string) :=
  let up := userprofile os in
  [ ("my documents", join os up "Documents");
    ("documents folder", join os up "Documents");
    ("downloads folder", join os up "Downloads");
    ("my downloads", join os up "Downloads");
    ("desktop", join os up "Desktop");
    ("pictures folder", join os up "Pictures");
    ("music folder", join os up "Music");
    ("videos folder", join os up "Videos");
    ("c drive", c_drive);
    ("d drive", d_drive);
    ("root", fs_root os);
    ("home", up);
    ("user folder", up);
    ("documents", join os up "Documents");
    ("downloads", join os up "Downloads");
    ("pictures", join os up "Pictures");
    ("music", join os up "Music");
    ("videos", join os up "Videos") ].

(** The [for key, val in mappings.items()] loop: the value of the first
    key that occurs in [nl], if any. *)
Fixpoint first_match (nl : string) (table : list (string * string))
  : option string :=
  match table with
  | [] => None
  | (key, val) :: rest =>
      if PyStr.contains key nl then Some val else first_match nl rest
  end.

(** The path of the two compound cases:
    [os.path.join(drive, "Users", os.getlogin(), "Documents")]. *)
Definition compound (os : Os) (drive : string) : string :=
  join os (join os (join os drive "Users") (login os)) "Documents".

(** [nl_path.lower().strip()]: the input as the resolver matches it. *)
Definition norm (nl_path : string) : string :=
  PyStr.strip (PyStr.lower nl_path).

(** [def infer_path_from_natural_language(nl_path)]. *)
Definition infer_path_from_natural_language (os : Os) (nl_path : string)
  : string :=
  let nl := norm nl_path in
  match first_match nl (mappings os) with
  | Some val => val
  | None =>
      if PyStr.contains "c drive" nl && PyStr.contains "documents" nl
      then compound os c_drive
      else if PyStr.contains "d drive" nl && PyStr.contains "documents" nl
      then compound os d_drive
      else nl
  end.

End Paths.

(** ** File search and guarded read *)

Module Files.

(** The depth that [find_file] gives a directory of the walk:
    [os.path.relpath(root, search_dir).count(os.sep)]. *)
Definition depth (os : Os) (top root : string) : nat :=
  Paths.count_sep (sep os) (relpath os root top).

(** [filename in files]. *)
Definition has_file (filename : string) (files : list string) : bool :=
  existsb (String.eqb filename) files.

(** The body of the [for root, _, files in os.walk(search_dir)] loop over
    what is left of the walk. *)
Fixpoint scan (os : Os) (filename top : string) (max_depth : Z)
  (entries : list (string * list string)) : option (string * string) :=
  match entries with
  | [] => None
  | (root, files) :: rest =>
      if (Z.of_nat (depth os top root) >? max_depth)%Z
      then scan os filename top max_depth rest
      else if has_file filename files
      then Some (Paths.join os root filename, root)
      else scan os filename top max_depth rest
  end.

(** A directory of the walk that ends the search: its depth is within
    the bound and it has a file of the name. *)
Definition hit (os : Os) (filename top : string) (max_depth : Z)
  (entry : string * list string) : bool :=
  (Z.of_nat (depth os top (fst entry)) <=? max_depth)%Z
  && has_file filename (snd entry).

(** [def find_file(filename, search_dir, max_depth)]; [None] stands for
    the pair [(None, None)]. *)
Definition find_file (os : Os) (filename search_dir : string)
  (max_depth : Z) : option (string * string) :=
  let top := abspath os search_dir in
  scan os filename top max_depth (walk os top).

Definition is_nul (b : Byte.byte) : bool := Byte.eqb b Byte.x00.

(** [def is_text_file(filepath, blocksize=512)]. *)
Definition is_text_file (os : Os) (filepath : string) : bool :=
  match file_bytes os filepath with
  | None => false
  | Some bs =>
      let chunk := firstn 512 bs in
      if existsb is_nul chunk then false else utf8_ok os chunk
  end.

Definition not_found (filename resolved_dir : string) (max_depth : Z)
  : string :=
  "File '" ++ filename ++ "' not found in '" ++ resolved_dir
  ++ "' (searched up to depth " ++ PyStr.of_Z max_depth ++ ").".

Definition prompt (file_path : string) : string :=
  "File found: " ++ file_path ++ PyStr.nl ++ PyStr.nl
  ++ "Do you want to read this file? "
  ++ "If yes, call this tool again with 'confirm=True'.".

Definition binary_notice (file_path : string) : string :=
  "File '" ++ file_path
  ++ "' appears to be binary or not a text file. "
  ++ "Reading as text is not supported.".

Definition truncated (file_path content : string) : string :=
  "File '" ++ file_path
  ++ "' is too large to display in full. Showing first 4000 characters:"
  ++ PyStr.nl ++ PyStr.nl ++ PyStr.take 4000 content.

Definition shown (file_path content : string) : string :=
  "File found: " ++ file_path ++ PyStr.nl ++ PyStr.nl ++ content.

(** [async def find_and_read_file(context, filename, search_dir,
    max_depth, confirm)]. *)
Definition find_and_read_file (os : Os) (filename search_dir : string)
  (max_depth : Z) (confirm : bool) : string :=
  let resolved_dir := Paths.infer_path_from_natural_language os search_dir in
  match find_file os filename resolved_dir max_depth with
  | None => not_found filename resolved_dir max_depth
  | Some (file_path, _) =>
      if String.eqb file_path "" then
        not_found filename resolved_dir max_depth
      else if negb confirm then prompt file_path
      else if negb (is_text_file os file_path) then binary_notice file_path
      else
        match read_text os file_path with
        | ReadOk content =>
            if 4000 <? String.length content
            then truncated file_path content
            else shown file_path content
        | ReadError e => "Error reading file " ++ file_path ++ ": " ++ e
        end
  end.

(** The same system with other file contents: names and directories stay,
    what the files hold changes. *)
Definition with_contents (os : Os)
  (bytes_of : string -> option (list Byte.byte))
  (text_of : string -> ReadResult) : Os :=
  {| sep := sep os; env_userprofile := env_userprofile os;
     home := home os; login := login os; fs_root := fs_root os;
     abspath := abspath os; relpath := relpath os; walk := walk os;
     file_bytes := bytes_of; utf8_ok := utf8_ok os;
     read_text := text_of |}.

End Files.

(** ** Password generation *)

Module Password.

(** [string.ascii_letters + string.digits + string.punctuation]. *)
Definition ascii_letters : string :=
  "abcdefghijklmnopqrstuvwxyzABCDEFGHIJKLMNOPQRSTUVWXYZ".
Definition digits : string := "0123456789".
Definition punctuation : string :=
  "!" ++ PyStr.dquote ++ "#$%&'()*+,-./:;<=>?@[" ++ Paths.backslash
  ++ "]^_`{|}~".
Definition characters : string := ascii_letters ++ digits ++ punctuation.

(** [secrets.choice(characters)]: the character at an index below
    [len(characters)]; [draw] is the value the system's random source
    gives for this pick. *)
Definition choice (draw : nat) : ascii :=
  match String.get (draw mod String.length characters) characters with
  | Some c => c
  | None => "a"%char
  end.

(** [''.join(secrets.choice(characters) for _ in range(length))], the
    k-th pick using the k-th draw of [source]. *)
Definition picks (source : nat -> nat) (length : nat) : string :=
  string_of_list_ascii (map (fun k => choice (source k)) (seq 0 length)).

(** The classes of [string]: letters, digits and punctuation, by code
    point. *)
Definition is_letter (c : ascii) : bool :=
  let n := nat_of_ascii c in
  ((65 <=? n) && (n <=? 90)) || ((97 <=? n) && (n <=? 122)).

Definition is_digit (c : ascii) : bool :=
  let n := nat_of_ascii c in (48 <=? n) && (n <=? 57).

Definition is_punctuation (c : ascii) : bool :=
  let n := nat_of_ascii c in
  ((33 <=? n) && (n <=? 47)) || ((58 <=? n) && (n <=? 64))
  || ((91 <=? n) && (n <=? 96)) || ((123 <=? n) && (n <=? 126)).

Definition allowed (c : ascii) : bool :=
  is_letter c || is_digit c || is_punctuation c.

Definition rejection : string :=
  "Password must be at least 6 characters long.".

(** [async def generate_password(context, length=12)]. *)
Definition generate_password (source : nat -> nat) (length : Z) : string :=
  if (length <? 6)%Z then rejection
  else picks source (Z.to_nat length).

End Password.

(** ** A small concrete system *)

Module Sample.

Local Set Warnings "-register-all".

(** A directory tree: a file with its bytes, or a folder with its entries
    in the order [os.scandir] lists them. *)
Inductive Node : Type :=
| File (data : list Byte.byte)
| Folder (entries : list (string * Node)).

Definition is_file (e : string * Node) : bool :=
  match snd e with File _ => true | Folder _ => false end.

Definition file_names (entries : list (string * Node)) : list string :=
  map fst (filter is_file entries).

Definition slash : ascii := "/"%char.

Definition under (top name : string) : string := top ++ String slash name.

(** [os.walk(top)], top-down: the directory itself, then each of its
    sub-directories in turn. *)
Fixpoint walk_node (top : string) (n : Node) : list (string * list string) :=
  match n with
  | File _ => []
  | Folder entries =>
      (top, file_names entries)
      :: (fix below (es : list (string * Node)) :=
            match es with
            | [] => []
            | (name, child) :: rest =>
                (walk_node (under top name) child ++ below rest)%list
            end) entries
  end.

(** Every file of the tree with its full path. *)
Fixpoint files_of (top : string) (n : Node)
  : list (string * list Byte.byte) :=
  match n with
  | File data => [(top, data)]
  | Folder entries =>
      (fix below (es : list (string * Node)) :=
         match es with
         | [] => []
         | (name, child) :: rest =>
             (files_of (under top name) child ++ below rest)%list
         end) entries
  end.

Fixpoint lookup {A : Type} (key : string) (l : list (string * A))
  : option A :=
  match l with
  | [] => None
  | (k, v) :: rest => if String.eqb k key then Some v else lookup key rest
  end.

Definition bytes_of_text (s : string) : list Byte.byte :=
  list_byte_of_string s.

(** 4001 letters, one more than the guarded read shows. *)
Definition long_text : string :=
  string_of_list_ascii (repeat "x"%char 4001).

Definition tree : Node :=
  Folder [
    ("readme.txt", File (bytes_of_text "hello"));
    ("src", Folder [
       ("a", Folder [
          ("b", Folder [("deep.txt", File (bytes_of_text "deep"))]);
          ("notes.txt", File (bytes_of_text "first"))]);
       ("notes.txt", File (bytes_of_text "second"));
       ("long.txt", File (bytes_of_text long_text));
       ("blob.bin", File [Byte.x41; Byte.x00; Byte.x42])])
  ].

Definition top_dir : string := "/srv".

(** Bytes below 128 only: the part of UTF-8 this system's files use. *)
Definition ascii_only (bs : list Byte.byte) : bool :=
  forallb (fun b => Byte.to_nat b <? 128) bs.

(** [os.path.relpath(root, top)] for a [root] at or below [top]. *)
Definition rel (root top : string) : string :=
  if String.eqb root top then "."
  else String.substring (String.length top + 1)
         (String.length root - String.length top - 1) root.

Definition os : Os :=
  {| sep := slash;
     env_userprofile := None;
     home := "/home/yogi";
     login := "yogi";
     fs_root := "/";
     abspath := fun p => if String.eqb p "." then top_dir else p;
     relpath := rel;
     walk := fun top =>
       if String.eqb top top_dir then walk_node top_dir tree else [];
     file_bytes := fun path => lookup path (files_of top_dir tree);
     utf8_ok := ascii_only;
     read_text := fun path =>
       match lookup path (files_of top_dir tree) with
       | Some bs =>
           if ascii_only bs then ReadOk (string_of_list_byte bs)
           else ReadError "'utf-8' codec can't decode"
       | None => ReadError "No such file or directory"
       end |}.

Definition healthy_empty : Disk :=
  {| body := None; readable := true; writable := true |}.

End Sample.

(** ** Sequences of note calls *)

Module NoteCalls.

(** The disk after [write_note] was called with each note in turn. *)
Definition write_all (notes : list PyText.text) (d : Disk) : Disk :=
  fold_left (fun acc note => snd (Notes.write_note note acc)) notes d.

(** The text that merging [rest], one after the other, onto the entry
    [first] builds. *)
Definition merge_all (first : PyText.text) (rest : list PyText.text)
  : PyText.text :=
  fold_left (fun acc note => Notes.merged note acc) rest first.

End NoteCalls.

(** ** Sending mail *)

Module Mail.

(** [if v:] for an optional string: [None] and the empty string are
    falsy. *)
Definition truthy (v : option string) : bool :=
  match v with
  | Some s => negb (String.eqb s "")
  | None => false
  end.

Definition text_of (v : option string) : string :=
  match v with Some s => s | None => "" end.

(** The MIME message the tool builds: its headers and its plain text. *)
Record Message : Type := mkMessage {
  header_from : string;
  header_to : string;
  header_subject : string;
  header_cc : option string;
  plain_text : string
}.

(** One [server.sendmail(from, recipients, msg)] that went through. *)
Record Delivery : Type := mkDelivery {
  envelope_from : string;
  envelope_to : list string;
  message : Message
}.

(** The calls made on the SMTP connection, in the order of the source. *)
Inductive Step : Type :=
| Connect
| StartTls
| Login
| SendMail
| Quit.

(** How a call on the connection fails: with
    [smtplib.SMTPAuthenticationError], or with any other exception. *)
Inductive Fault : Type :=
| AuthFault
| OtherFault.

(** The mail server: for each call, whether it raises. *)
Definition Server : Type := Step -> option Fault.

(** The [email] package as the tool uses it, by whether a call raises.
    - [builds m]: setting the headers and attaching
      [MIMEText(message, "plain")] go through; the text of a message with
      a character that cannot be encoded makes [MIMEText] raise.
    - [serialises m]: [msg.as_string()] goes through; a header value with
      an embedded header, such as a subject with a line break followed by
      another header, makes it raise. *)
Record Library : Type := mkLibrary {
  builds : Message -> bool;
  serialises : Message -> bool
}.

(** The two [except] clauses. *)
Definition failure (f : Fault) : string :=
  match f with
  | AuthFault => "Authentication with SMTP failed."
  | OtherFault => "Failed to send the email."
  end.

(** The environment variables [gmail_user] and [gmail_password]. *)
Record Environ : Type := mkEnviron {
  gmail_user : option string;
  gmail_password : option string
}.

(** [recipients = [to_email]], with [cc_email] appended when it is
    truthy. *)
Definition recipients_of (to_email : string) (cc_email : option string)
  : list string :=
  to_email :: (if truthy cc_email then [text_of cc_email] else []).

Definition message_of (user to_email subject text : string)
  (cc_email : option string) : Message :=
  {| header_from := user;
     header_to := to_email;
     header_subject := subject;
     header_cc := if truthy cc_email then cc_email else None;
     plain_text := text |}.

(** [async def send_email(context, to_email, subject, message, cc_email)]:
    the answer and the mails delivered so far.  Whatever raises inside the
    [try] ends it: building the message, a call on the connection, or
    [msg.as_string()], which is evaluated after the login as the argument
    of [sendmail].  What [sendmail] delivered before stays delivered. *)
Definition send_email (env : Environ) (lib : Library) (server : Server)
  (outbox : list Delivery)
  (to_email subject text : string) (cc_email : option string)
  : string * list Delivery :=
  if negb (truthy (gmail_user env)) || negb (truthy (gmail_password env))
  then ("Gmail credentials not set in environment.", outbox)
  else
    let user := text_of (gmail_user env) in
    let recipients := recipients_of to_email cc_email in
    let msg := message_of user to_email subject text cc_email in
    if negb (builds lib msg) then (failure OtherFault, outbox)
    else
    match server Connect with
    | Some f => (failure f, outbox)
    | None =>
    match server StartTls with
    | Some f => (failure f, outbox)
    | None =>
    match server Login with
    | Some f => (failure f, outbox)
    | None =>
    if negb (serialises lib msg) then (failure OtherFault, outbox)
    else
    match server SendMail with
    | Some f => (failure f, outbox)
    | None =>
        let sent := (outbox ++ [mkDelivery user recipients msg])%list in
        match server Quit with
        | Some f => (failure f, sent)
        | None => ("Email sent to " ++ to_email ++ ".", sent)
        end
    end end end end.

(** A server on which every call goes through. *)
Definition reliable : Server := fun _ => None.

(** An [email] package that builds every message and refuses to
    serialise one whose subject or recipient has a line break. *)
Definition careful : Library :=
  {| builds := fun _ => true;
     serialises := fun m =>
       negb (PyStr.contains PyStr.nl (header_subject m))
       && negb (PyStr.contains PyStr.nl (header_to m)) |}.


End Mail.

(** ** News headlines *)

Module News.

(** The JSON object of the news API as the tool reads it: the values of
    [status] and [message] when present, and the [articles] when
    present, each with its [title] when it has one. *)
Record Feed : Type := mkFeed {
  status : option string;
  error_message : option string;
  articles : option (list (option string))
}.

(** What [requests.get(url)] followed by [response.json()] gives: the
    object, or an exception with its text. *)
Inductive Reply : Type :=
| Body (feed : Feed)
| Failed (error : string).

(** [l[:count]] for an integer [count]: a negative [count] counts from
    the end. *)
Definition slice_to {A : Type} (count : Z) (l : list A) : list A :=
  if (count <? 0)%Z
  then firstn (List.length l - Z.to_nat (- count)) l
  else firstn (Z.to_nat count) l.

(** [[article['title'] for article in ...]]: the titles, or the first
    article without one, where the comprehension raises [KeyError]. *)
Fixpoint titles (l : list (option string)) : option (list string) :=
  match l with
  | [] => Some []
  | None :: _ => None
  | Some t :: rest =>
      match titles rest with
      | Some ts => Some (t :: ts)
      | None => None
      end
  end.

(** [async def get_news_headlines(context, country, count)], given what
    the request returned. *)
Definition get_news_headlines (reply : Reply) (count : Z) : string :=
  match reply with
  | Failed e => "Error fetching news: " ++ e
  | Body feed =>
      if match status feed with
         | Some s => String.eqb s "ok"
         | None => false
         end
      then
        match articles feed with
        | None => "Error fetching news: 'articles'"
        | Some listed =>
            match titles (slice_to count listed) with
            | None => "Error fetching news: 'title'"
            | Some [] => "No headlines found."
            | Some headlines => PyStr.join PyStr.nl headlines
            end
        end
      else "Error from news API: "
           ++ match error_message feed with
              | Some m => m
              | None => "Unknown error"
              end
  end.

End News.

(** ** Google Calendar *)

Module Calendar.

(** The credentials object: what the tools ask of it. *)
Record Creds : Type := mkCreds {
  token : string;
  valid : bool;
  expired : bool;
  refresh_token : option string
}.

(** An event of the API as the listing reads it: the [start] object, when
    present, with its [dateTime] and [date] entries, and the [summary]. *)
Record Event : Type := mkEvent {
  start : option (option string * option string);
  summary : option string
}.

(** The body of the event that [add_calendar_event] inserts. *)
Record NewEvent : Type := mkNewEvent {
  new_summary : string;
  new_description : string;
  new_start : string;
  new_end : string
}.

(** What the API call inside the [try] block gives: its result, or an
    exception with its text. *)
Inductive Listed : Type :=
| Items (events : list Event)
| ListFailed (error : string).

Inductive Inserted : Type :=
| Created (htmlLink : option string)
| InsertFailed (error : string).

(** Google as the tools see it.
    - [token_pickle]: the credentials in [token.pickle], when the file
      exists;
    - [refresh c]: the credentials after [creds.refresh(Request())], or
      [None] when it raises;
    - [consent]: the credentials of [flow.run_local_server(port=0)], or
      [None] when the flow raises, as it does without the client secret
      file;
    - [list_events], [insert_event]: the calls on the service.
    The token file itself is read and written without fault. *)
Record Google : Type := mkGoogle {
  token_pickle : option Creds;
  refresh : Creds -> option Creds;
  consent : option Creds;
  list_events : Creds -> Z -> Listed;
  insert_event : Creds -> NewEvent -> Inserted
}.

(** [pickle.dump(creds, token)]. *)
Definition store (g : Google) (c : Creds) : Google :=
  {| token_pickle := Some c; refresh := refresh g; consent := consent g;
     list_events := list_events g; insert_event := insert_event g |}.

(** What a calendar tool hands to the runtime: a string, or an exception
    that escaped. *)
Inductive Result : Type :=
| Answer (text : string)
| Escaped.

(** The credential block that both calendar tools run before their [try]:
    load the token file, refresh or ask for consent when the credentials
    are missing or not valid, and write the token file back.  [None]: an
    exception was raised, nothing was written. *)
Definition authorize (g : Google) : option (Creds * Google) :=
  let renew (c : option Creds) :=
    match c with
    | Some c' => Some (c', store g c')
    | None => None
    end in
  match token_pickle g with
  | Some c =>
      if valid c then Some (c, g)
      else if expired c && Mail.truthy (refresh_token c)
      then renew (refresh g c)
      else renew (consent g)
  | None => renew (consent g)
  end.

(** [event['start'].get('dateTime', event['start'].get('date'))], as the
    f-string prints it. *)
Definition start_text (s : option string * option string) : string :=
  match s with
  | (Some date_time, _) => date_time
  | (None, Some date) => date
  | (None, None) => "None"
  end.

(** The lines of the listing, or the key whose lookup raised
    [KeyError]. *)
Fixpoint event_lines (events : list Event) : string + list string :=
  match events with
  | [] => inr []
  | e :: rest =>
      match start e with
      | None => inl "start"
      | Some s =>
          match summary e with
          | None => inl "summary"
          | Some text =>
              match event_lines rest with
              | inl key => inl key
              | inr lines => inr ((start_text s ++ ": " ++ text) :: lines)
              end
          end
      end
  end.

Definition how_many_days : string :=
  "How many days ahead would you like to check your calendar events for?".

(** [async def get_calendar_events(context, days=None)]. *)
Definition get_calendar_events (g : Google) (days : option Z)
  : Result * Google :=
  match days with
  | None => (Answer how_many_days, g)
  | Some n =>
      match authorize g with
      | None => (Escaped, g)
      | Some (creds, g1) =>
          match list_events g1 creds n with
          | ListFailed e =>
              (Answer ("Error fetching calendar events: " ++ e), g1)
          | Items [] =>
              (Answer ("No upcoming events found in the next "
                       ++ PyStr.of_Z n ++ " day(s)."), g1)
          | Items events =>
              match event_lines events with
              | inl key =>
                  (Answer ("Error fetching calendar events: '" ++ key ++ "'"),
                   g1)
              | inr lines =>
                  (Answer
                     (PyStr.join PyStr.nl
                        (("Here are your events for the next "
                          ++ PyStr.of_Z n ++ " day(s):") :: lines)), g1)
              end
          end
      end
  end.

(** The two signs of the answers, in UTF-8. *)
Definition check_mark : string := "✅".
Definition warning_sign : string := "⚠️".

Definition ask_name : string := "What should I name the event?".
Definition ask_start : string :=
  "When should the event start? (Please say in format like '2025-07-22T15:00:00+05:30')".
Definition ask_end : string :=
  "When should the event end? (Please say in format like '2025-07-22T16:00:00+05:30')".

(** [async def add_calendar_event(context, summary, start_time, end_time,
    description)]. *)
Definition add_calendar_event (g : Google)
  (summary start_time end_time : option string) (description : string)
  : Result * Google :=
  if negb (Mail.truthy summary) then (Answer ask_name, g)
  else if negb (Mail.truthy start_time) then (Answer ask_start, g)
  else if negb (Mail.truthy end_time) then (Answer ask_end, g)
  else
    match authorize g with
    | None => (Escaped, g)
    | Some (creds, g1) =>
        let event :=
          {| new_summary := Mail.text_of summary;
             new_description := description;
             new_start := Mail.text_of start_time;
             new_end := Mail.text_of end_time |} in
        match insert_event g1 creds event with
        | InsertFailed e =>
            (Answer (warning_sign ++ " Failed to add event: " ++ e), g1)
        | Created link =>
            (Answer
               (check_mark ++ " Event created successfully!" ++ PyStr.nl
                ++ "Title: " ++ Mail.text_of summary ++ PyStr.nl
                ++ "Start: " ++ Mail.text_of start_time ++ PyStr.nl
                ++ "End: " ++ Mail.text_of end_time ++ PyStr.nl
                ++ "Link: "
                ++ match link with Some l => l | None => "N/A" end), g1)
        end
    end.

(** A Google without a token file, where consent cannot be asked. *)
Definition signed_out : Google :=
  {| token_pickle := None;
     refresh := fun _ => None;
     consent := None;
     list_events := fun _ _ => Items [];
     insert_event := fun _ _ => Created None |}.

(** A Google with valid credentials in the token file and two events. *)
Definition signed_in : Google :=
  {| token_pickle := Some (mkCreds "t0" true false (Some "r0"));
     refresh := fun _ => None;
     consent := None;
     list_events := fun _ _ =>
       Items [ mkEvent (Some (Some "2025-07-22T15:00:00+05:30", None))
                 (Some "Standup");
               mkEvent (Some (None, Some "2025-07-23")) (Some "Holiday") ];
     insert_event := fun _ _ => Created (Some "https://calendar/e1") |}.

(** A Google whose token has expired and can be refreshed. *)
Definition stale : Google :=
  {| token_pickle := Some (mkCreds "t0" false true (Some "r0"));
     refresh := fun c => Some (mkCreds "t1" true false (refresh_token c));
     consent := None;
     list_events := fun _ _ => Items [];
     insert_event := fun _ _ => Created None |}.

End Calendar.

(** * Properties *)

(** ** The store file *)

Lemma save_store_writable : forall items d,
  writable (save_store items d) = writable d.
Proof.
  intros items d. unfold save_store.
  destruct (writable d) eqn:E; [|exact E].
  destruct (forallb PyText.encodable items); exact E.
Qed.

Lemma save_store_readable : forall items d,
  readable (save_store items d) = readable d.
Proof.
  intros items d. unfold save_store.
  destruct (writable d); [|reflexivity].
  destruct (forallb PyText.encodable items); reflexivity.
Qed.

Lemma save_store_body : forall items d,
  writable d = true -> forallb PyText.encodable items = true ->
  body (save_store items d) = Some (Document (JArray items)).
Proof. intros items d H He. unfold save_store. rewrite H, He. reflexivity. Qed.

Lemma save_store_empty_body : forall d,
  writable d = true ->
  body (save_store [] d) = Some (Document (JArray [])).
Proof. intros d H. now apply save_store_body. Qed.

(** A save of a list with an item that cannot be encoded leaves text
    that is not JSON. *)
Lemma save_store_truncated : forall items d,
  writable d = true -> forallb PyText.encodable items = false ->
  body (save_store items d)
  = Some (Malformed (Dump.written_before true items)).
Proof. intros items d H He. unfold save_store. rewrite H, He. reflexivity. Qed.

Lemma load_store_writable : forall d,
  writable (snd (load_store d)) = writable d.
Proof.
  intros d. unfold load_store.
  destruct (body d) as [[raw|text|v]|]; destruct (readable d); simpl;
    auto using save_store_writable.
Qed.

Lemma load_store_readable : forall d,
  readable (snd (load_store d)) = readable d.
Proof.
  intros d. unfold load_store.
  destruct (body d) as [[raw|text|v]|]; destruct (readable d) eqn:E; simpl;
    rewrite ?save_store_readable; auto.
Qed.

(** Loading a readable file that holds a JSON document returns the
    document and leaves the disk alone. *)
Lemma load_store_document : forall d v,
  body d = Some (Document v) -> readable d = true ->
  load_store d = (v, d).
Proof. intros d v Hb Hr. unfold load_store. rewrite Hb, Hr. reflexivity. Qed.

Lemma load_store_absent : forall d,
  body d = None -> load_store d = (JArray [], d).
Proof. intros d Hb. unfold load_store. rewrite Hb. reflexivity. Qed.

(** ** The task store *)

Module TasksFacts.
Import PyText Tasks.

Lemma call_writable : forall o d, writable (snd (call o d)) = writable d.
Proof.
  intros o d. destruct o as [t| |]; simpl.
  - unfold add_task, load_tasks, save_tasks.
    pose proof (load_store_writable d) as H.
    destruct (load_store d) as [[items|keys|n] d1]; simpl in *;
      rewrite ?save_store_writable; exact H.
  - unfold list_tasks, load_tasks.
    pose proof (load_store_writable d) as H.
    destruct (load_store d) as [[[|i items]|[|k keys]|[|n|n]] d1];
      simpl in *; exact H.
  - apply save_store_writable.
Qed.

Lemma call_readable : forall o d, readable (snd (call o d)) = readable d.
Proof.
  intros o d. destruct o as [t| |]; simpl.
  - unfold add_task, load_tasks, save_tasks.
    pose proof (load_store_readable d) as H.
    destruct (load_store d) as [[items|keys|n] d1]; simpl in *;
      rewrite ?save_store_readable; exact H.
  - unfold list_tasks, load_tasks.
    pose proof (load_store_readable d) as H.
    destruct (load_store d) as [[[|i items]|[|k keys]|[|n|n]] d1];
      simpl in *; exact H.
  - apply save_store_readable.
Qed.

Lemma run_app : forall ops1 ops2 d,
  run (ops1 ++ ops2) d = run ops2 (run ops1 d).
Proof. intros. unfold run. apply fold_left_app. Qed.

Lemma run_writable : forall ops d, writable (run ops d) = writable d.
Proof.
  induction ops as [|o ops IH]; intros d; simpl; [reflexivity|].
  unfold run in *. simpl. rewrite IH. apply call_writable.
Qed.

Lemma run_readable : forall ops d, readable (run ops d) = readable d.
Proof.
  induction ops as [|o ops IH]; intros d; simpl; [reflexivity|].
  unfold run in *. simpl. rewrite IH. apply call_readable.
Qed.

(** After [clear_tasks] on a writable file the file holds the empty
    array. *)
Lemma clear_body : forall d,
  writable d = true ->
  body (snd (clear_tasks d)) = Some (Document (JArray [])).
Proof. intros d H. simpl. unfold save_tasks. now apply save_store_empty_body. Qed.

(** Listing a file that holds the empty array gives the fixed message,
    whether or not the file can be read. *)
Lemma list_empty_document : forall d,
  body d = Some (Document (JArray [])) ->
  fst (list_tasks d) = Returned (lit "No tasks in the list.").
Proof.
  intros d Hb. unfold list_tasks, load_tasks, load_store. rewrite Hb.
  destruct (readable d); reflexivity.
Qed.

Lemma encodable_snoc : forall items t,
  forallb encodable items = true -> encodable t = true ->
  forallb encodable (items ++ [t]) = true.
Proof.
  intros items t Hi Ht. rewrite forallb_app, Hi. simpl. now rewrite Ht.
Qed.

(** One [add_task] on a healthy file that holds an array appends, when
    the tasks can be encoded. *)
Lemma add_task_document : forall t items d,
  body d = Some (Document (JArray items)) ->
  readable d = true -> writable d = true ->
  forallb encodable items = true -> encodable t = true ->
  add_task t d
  = (Returned (cat (lit "Task added: ") t),
     set_body d (Document (JArray (items ++ [t])))).
Proof.
  intros t items d Hb Hr Hw Hi Ht. unfold add_task, load_tasks.
  rewrite (load_store_document d _ Hb Hr). unfold save_tasks, save_store.
  rewrite Hw, (encodable_snoc items t Hi Ht). reflexivity.
Qed.

Lemma add_task_absent : forall t d,
  body d = None -> writable d = true -> encodable t = true ->
  add_task t d
  = (Returned (cat (lit "Task added: ") t),
     set_body d (Document (JArray [t]))).
Proof.
  intros t d Hb Hw Ht. unfold add_task, load_tasks.
  rewrite (load_store_absent d Hb). unfold save_tasks, save_store.
  rewrite Hw. simpl. rewrite Ht. reflexivity.
Qed.

(** A run of [add_task] calls appends the tasks in call order. *)
Lemma run_adds_document : forall ts items d,
  body d = Some (Document (JArray items)) ->
  readable d = true -> writable d = true ->
  forallb encodable items = true -> forallb encodable ts = true ->
  body (run (map Add ts) d) = Some (Document (JArray (items ++ ts))).
Proof.
  induction ts as [|t ts IH]; intros items d Hb Hr Hw Hi Hts.
  - simpl. now rewrite app_nil_r.
  - simpl in Hts. apply andb_true_iff in Hts. destruct Hts as [Ht Hts].
    change (map Add (t :: ts)) with ([Add t] ++ map Add ts)%list.
    rewrite run_app. unfold run at 2. simpl.
    rewrite (add_task_document t items d Hb Hr Hw Hi Ht). simpl.
    rewrite (IH (items ++ [t])%list); simpl; auto.
    + now rewrite <- app_assoc.
    + now apply encodable_snoc.
Qed.

Lemma run_adds_empty : forall ts d,
  body d = None \/ body d = Some (Document (JArray [])) ->
  readable d = true -> writable d = true ->
  forallb encodable ts = true -> ts <> [] ->
  body (run (map Add ts) d) = Some (Document (JArray ts)).
Proof.
  intros ts d [Hb|Hb] Hr Hw Hts Hne.
  - destruct ts as [|t ts]; [congruence|].
    simpl in Hts. apply andb_true_iff in Hts. destruct Hts as [Ht Hts].
    change (map Add (t :: ts)) with ([Add t] ++ map Add ts)%list.
    rewrite run_app. unfold run at 2. simpl.
    rewrite (add_task_absent t d Hb Hw Ht). simpl.
    rewrite (run_adds_document ts [t]); simpl; auto.
    now rewrite Ht.
  - now rewrite (run_adds_document ts [] d Hb Hr Hw).
Qed.

(** The lines of a listing, one per task and in the order of the tasks. *)
Lemma nth_error_enumerate_from : forall (A : Type) (l : list A) a i x,
  nth_error l i = Some x ->
  nth_error (combine (seq a (List.length l)) l) i = Some (a + i, x).
Proof.
  induction l as [|y l IH]; intros a i x H.
  - destruct i; discriminate.
  - destruct i as [|i]; simpl in *.
    + injection H as ->. now rewrite Nat.add_0_r.
    + rewrite (IH (S a) i x H). f_equal. f_equal. lia.
Qed.

Lemma lines_length : forall ts, List.length (lines ts) = List.length ts.
Proof.
  intros ts. unfold lines, PyStr.enumerate.
  rewrite length_map, length_combine, length_seq. apply Nat.min_id.
Qed.

Lemma lines_nth : forall ts i t,
  nth_error ts i = Some t ->
  nth_error (lines ts) i = Some (cat (of_nat (i + 1)) (cat (lit ". ") t)).
Proof.
  intros ts i t H. unfold lines, PyStr.enumerate.
  rewrite nth_error_map, (nth_error_enumerate_from _ ts 0 i t H).
  reflexivity.
Qed.

End TasksFacts.

Module TasksSpec.
Import PyText Tasks TasksFacts.

Lemma call_holds : forall o d ts,
  readable d = true -> writable d = true ->
  forallb encodable ts = true -> encodable_op o = true ->
  holds d ts ->
  holds (snd (call o d)) (pending [o] ts)
  /\ forallb encodable (pending [o] ts) = true.
Proof.
  intros o d ts Hr Hw Hts Ho [Hb|[-> Hb]]; destruct o as [t| |]; simpl in *.
  - rewrite (add_task_document t ts d Hb Hr Hw Hts Ho).
    split; [now left|now apply encodable_snoc].
  - unfold list_tasks, load_tasks. rewrite (load_store_document d _ Hb Hr).
    split; [|exact Hts]. destruct ts; simpl; now left.
  - split; [|reflexivity].
    left. unfold save_tasks. now apply save_store_empty_body.
  - rewrite (add_task_absent t d Hb Hw Ho).
    split; [now left|now rewrite Ho].
  - unfold list_tasks, load_tasks. rewrite (load_store_absent d Hb).
    simpl. split; [now right|reflexivity].
  - split; [|reflexivity].
    left. unfold save_tasks. now apply save_store_empty_body.
Qed.

Lemma run_holds : forall ops d ts,
  readable d = true -> writable d = true ->
  forallb encodable ts = true -> forallb encodable_op ops = true ->
  holds d ts ->
  holds (run ops d) (pending ops ts).
Proof.
  induction ops as [|o ops IH]; intros d ts Hr Hw Hts Hops H; [exact H|].
  simpl in Hops. apply andb_true_iff in Hops. destruct Hops as [Ho Hops].
  change (o :: ops) with ([o] ++ ops)%list.
  rewrite run_app. unfold pending. rewrite fold_left_app.
  destruct (call_holds o d ts Hr Hw Hts Ho H) as [Hh He].
  apply IH; auto.
  - unfold run. simpl. now rewrite call_readable.
  - unfold run. simpl. now rewrite call_writable.
Qed.

Lemma list_tasks_holds : forall d ts,
  readable d = true -> holds d ts ->
  fst (list_tasks d) = Returned (listing ts).
Proof.
  intros d ts Hr [Hb|[-> Hb]]; unfold list_tasks, load_tasks.
  - rewrite (load_store_document d _ Hb Hr). now destruct ts.
  - now rewrite (load_store_absent d Hb).
Qed.

(** C1, counterexample. The claim fails without conditions on the file
    and on the tasks. On a file that cannot be written, the listing after
    [clear_tasks] still shows the stored task. From an empty store that
    can be read and written, two adds of which the second has a lone
    surrogate leave no task at all: the listing is the fixed message, not
    two lines. *)
Lemma list_tasks_claim_needs_conditions :
  ~ (forall (ops : list Op) (d : Disk),
       fst (list_tasks (run (ops ++ [Clear]) d))
       = Returned (lit "No tasks in the list."))
  /\ ~ (forall (ts : list text) (d0 : Disk),
          empty_store d0 ->
          fst (list_tasks (run (map Add ts) d0)) = Returned (listing ts)).
Proof.
  split.
  - intros H.
    specialize (H [] {| body := Some (Document (JArray [lit "call mum"]));
                        readable := true; writable := false |}).
    discriminate H.
  - intros H.
    specialize (H [lit "buy milk";
                   [Surrogate (false, false, false) "000"%char]]
                  {| body := None; readable := true; writable := true |}
                  (or_introl eq_refl)).
    discriminate H.
Qed.

(** C1, amended. After any sequence of calls that ends in [clear_tasks],
    on a file that can be written, [list_tasks] returns the fixed message
    [No tasks in the list.].  Starting from an empty store that can be read
    and written, [list_tasks] after the calls [add_task t1 .. add_task tN],
    with tasks that UTF-8 can encode, returns the N lines [i. ti] joined by
    newlines, in the order of the calls and numbered from 1 (the fixed
    message when N is 0). *)
Theorem list_tasks_after_clear_and_adds :
  forall (ops : list Op) (d : Disk) (ts : list text) (d0 : Disk),
  (writable d = true ->
   fst (list_tasks (run (ops ++ [Clear]) d))
   = Returned (lit "No tasks in the list."))
  /\ (empty_store d0 -> readable d0 = true -> writable d0 = true ->
      forallb encodable ts = true ->
      fst (list_tasks (run (map Add ts) d0))
      = Returned (match ts with
                  | [] => lit "No tasks in the list."
                  | _ => join nl (lines ts)
                  end)
      /\ List.length (lines ts) = List.length ts
      /\ forall i t, nth_error ts i = Some t ->
           nth_error (lines ts) i
           = Some (cat (of_nat (i + 1)) (cat (lit ". ") t))).
Proof.
  intros ops d ts d0. split.
  - intros Hw. rewrite run_app. apply list_empty_document.
    unfold run at 1. simpl. unfold save_tasks. apply save_store_empty_body.
    now rewrite run_writable.
  - intros He Hr Hw Hts. split; [|split].
    + destruct ts as [|t ts].
      * simpl. apply (list_tasks_holds d0 []); auto.
        destruct He; [right|left]; auto.
      * apply (list_tasks_holds _ (t :: ts)).
        -- now rewrite run_readable.
        -- left. apply run_adds_empty; auto. discriminate.
    + apply lines_length.
    + apply lines_nth.
Qed.

Lemma list_tasks_after_clear_and_adds_witness :
  fst (list_tasks (run ([Add (lit "call mum"); List] ++ [Clear])
                     Sample.healthy_empty))
  = Returned (lit "No tasks in the list.")
  /\ fst (list_tasks (run (map Add [lit "buy milk"]) Sample.healthy_empty))
     = Returned (lit "1. buy milk").
Proof.
  destruct (list_tasks_after_clear_and_adds [Add (lit "call mum"); List]
              Sample.healthy_empty [lit "buy milk"] Sample.healthy_empty)
    as [Hclear Hadds].
  split.
  - apply Hclear. reflexivity.
  - destruct Hadds as [Hlist _].
    + left. reflexivity.
    + reflexivity.
    + reflexivity.
    + reflexivity.
    + exact Hlist.
Defined.

End TasksSpec.

(** ** Python's strip functions *)

Module PyStrFacts.
Import PyStr.

(** [lstrip] removes a run of white space from the front and stops at the
    first other character. *)
Lemma lstrip_split : forall s,
  exists ws, s = ws ++ lstrip s /\ all_space ws = true
             /\ (forall c r, lstrip s = String c r -> isspace c = false).
Proof.
  induction s as [|c s (ws & Heq & Hws & Hhead)].
  - exists "". repeat split; auto. discriminate.
  - simpl. destruct (isspace c) eqn:Ec.
    + exists (String c ws). simpl. rewrite Ec, Hws. repeat split; auto.
      now rewrite <- Heq.
    + exists "". repeat split; auto. intros c0 r [= <- _]. exact Ec.
Qed.

Lemma rstrip_cons : forall c s,
  rstrip (String c s)
  = match rstrip s with
    | EmptyString => if isspace c then EmptyString else String c EmptyString
    | kept => String c kept
    end.
Proof. reflexivity. Qed.

(** [rstrip] removes a run of white space from the end. *)
Lemma rstrip_split : forall s,
  exists ws, s = rstrip s ++ ws /\ all_space ws = true.
Proof.
  induction s as [|c s (ws & Heq & Hws)].
  - exists "". auto.
  - rewrite rstrip_cons. destruct (rstrip s) as [|k kept] eqn:Er.
    + simpl in Heq. subst ws. destruct (isspace c) eqn:Ec.
      * exists (String c s). simpl. rewrite Ec, Hws. auto.
      * exists s. auto.
    + exists ws. split; auto. simpl. f_equal. exact Heq.
Qed.

(** What [rstrip] keeps does not end in white space. *)
Lemma rstrip_last : forall s,
  rstrip s = "" \/ exists r c, rstrip s = r ++ String c "" /\ isspace c = false.
Proof.
  induction s as [|c s IH].
  - now left.
  - rewrite rstrip_cons. destruct (rstrip s) as [|k kept] eqn:Er.
    + destruct (isspace c) eqn:Ec; [now left|].
      right. exists "", c. auto.
    + right. destruct IH as [H|(r & c0 & Hr & Hc)]; [discriminate|].
      exists (String c r), c0. simpl. now rewrite Hr.
Qed.

End PyStrFacts.

(** ** Loading a store file *)

Module StoreSpec.

Lemma load_after_save : forall items d,
  readable d = true -> writable d = true ->
  forallb PyText.encodable items = true ->
  load_store (save_store items d) = (JArray items, save_store items d).
Proof.
  intros items d Hr Hw He. apply load_store_document.
  - now apply save_store_body.
  - now rewrite save_store_readable.
Qed.

(** C3, counterexample. It is not so that every store file whose content
    is not JSON is reset by the load: on a file that holds the byte FF,
    which is not UTF-8, the load returns the empty list and the byte
    stays. *)
Lemma load_invalid_json_not_always_reset :
  ~ (forall (d : Disk) (b : FileBody),
       body d = Some b -> is_json b = false ->
       fst (load_store d) = JArray []
       /\ holds_empty_array (snd (load_store d))).
Proof.
  intros H.
  destruct (H {| body := Some (Undecodable [Byte.xff]);
                 readable := true; writable := true |}
              (Undecodable [Byte.xff]) eq_refl eq_refl) as [_ Hreset].
  discriminate Hreset.
Qed.

(** C3, amended. When the store file can be read as text, the text is
    not JSON (json.load raises JSONDecodeError) and the file can be
    written, the load returns the empty list and leaves the file holding
    the empty JSON array, whatever the text was. *)
Theorem load_malformed_resets :
  forall (d : Disk) (text : string),
  body d = Some (Malformed text) ->
  readable d = true -> writable d = true ->
  fst (load_store d) = JArray []
  /\ holds_empty_array (snd (load_store d))
  /\ snd (load_store d) = save_store [] d.
Proof.
  intros d text Hb Hr Hw. unfold load_store. rewrite Hb, Hr. simpl.
  repeat split. unfold holds_empty_array. now apply save_store_empty_body.
Qed.

Lemma load_malformed_resets_witness :
  let d := {| body := Some (Malformed "{oops");
              readable := true; writable := true |} in
  fst (load_store d) = JArray []
  /\ holds_empty_array (snd (load_store d))
  /\ snd (load_store d) = save_store [] d.
Proof.
  apply (load_malformed_resets _ "{oops"); reflexivity.
Defined.

(** C10. When the store file exists and loading it fails for another
    reason than a JSON decode error (the file cannot be opened for
    reading, or its bytes are not UTF-8), the load returns the empty list
    and the disk is exactly as before: nothing is written. *)
Theorem load_other_failure_keeps_file :
  forall (d : Disk) (b : FileBody),
  body d = Some b ->
  readable d = false \/ (exists raw, b = Undecodable raw) ->
  load_store d = (JArray [], d).
Proof.
  intros d b Hb [Hr|[raw ->]]; unfold load_store; rewrite Hb.
  - now rewrite Hr.
  - now destruct (readable d).
Qed.

Lemma load_other_failure_keeps_file_witness :
  (let d := {| body := Some (Malformed "{oops");
               readable := false; writable := true |} in
   load_store d = (JArray [], d))
  /\ (let d := {| body := Some (Undecodable [Byte.xc3; Byte.x28]);
                  readable := true; writable := true |} in
      load_store d = (JArray [], d)).
Proof.
  split.
  - apply (load_other_failure_keeps_file _ (Malformed "{oops")).
    + reflexivity.
    + left. reflexivity.
  - apply (load_other_failure_keeps_file _ (Undecodable [Byte.xc3; Byte.x28])).
    + reflexivity.
    + right. exists [Byte.xc3; Byte.x28]. reflexivity.
Defined.

(** The reset happens on a JSON decode error only: a load changes the
    disk exactly when the file is readable, writable and holds malformed
    text. *)
Lemma load_writes_only_on_decode_error : forall d,
  snd (load_store d) <> d ->
  exists text, body d = Some (Malformed text)
               /\ readable d = true /\ writable d = true.
Proof.
  intros d H. unfold load_store, save_store in H.
  destruct (body d) as [[raw|text|v]|] eqn:Hb;
    destruct (readable d) eqn:Hr; simpl in H; try congruence.
  destruct (writable d) eqn:Hw; [|congruence]. eauto.
Qed.

End StoreSpec.

(** ** The note store *)

Module NotesSpec.
Import PyText Notes.

Lemma update_last_length : forall f items,
  items <> [] ->
  List.length (update_last f items) = List.length items.
Proof.
  intros f items Hne. unfold update_last.
  rewrite length_app. simpl.
  destruct items as [|x items]; [congruence|].
  rewrite (app_removelast_last [] (l := x :: items)) at 2 by discriminate.
  now rewrite length_app.
Qed.

Lemma update_last_front : forall f items,
  removelast (update_last f items) = removelast items.
Proof. intros. unfold update_last. apply removelast_last. Qed.

Lemma update_last_last : forall f items,
  last (update_last f items) [] = f (last items []).
Proof. intros. unfold update_last. apply last_last. Qed.

Lemma encodable_app : forall a b,
  encodable (cat a b) = encodable a && encodable b.
Proof. intros. unfold encodable, cat. apply forallb_app. Qed.

Lemma encodable_lstrip : forall s,
  encodable s = true -> encodable (lstrip s) = true.
Proof.
  induction s as [|c s IH]; intros H; [reflexivity|].
  simpl. destruct (isspace c); [|exact H].
  simpl in H. apply andb_true_iff in H. now apply IH.
Qed.

Lemma encodable_rstrip : forall s,
  encodable s = true -> encodable (rstrip s) = true.
Proof.
  induction s as [|c s IH]; intros H; [reflexivity|].
  simpl in H. apply andb_true_iff in H. destruct H as [Hc Hs].
  specialize (IH Hs). simpl.
  destruct (rstrip s) as [|k kept].
  - destruct (isspace c); [reflexivity|]. simpl. now rewrite Hc.
  - change (encodable (c :: k :: kept))
      with (encodable_char c && encodable (k :: kept)).
    now rewrite Hc, IH.
Qed.

Lemma encodable_merged : forall note old,
  encodable note = true -> encodable old = true ->
  encodable (merged note old) = true.
Proof.
  intros note old Hn Ho. unfold merged.
  rewrite !encodable_app, (encodable_rstrip old Ho),
    (encodable_lstrip note Hn). reflexivity.
Qed.

Lemma forallb_removelast : forall (A : Type) (p : A -> bool) l,
  forallb p l = true -> forallb p (removelast l) = true.
Proof.
  induction l as [|x l IH]; intros H; [reflexivity|].
  simpl in H. apply andb_true_iff in H. destruct H as [Hx Hl].
  destruct l as [|y l]; [reflexivity|].
  change (removelast (x :: y :: l)) with (x :: removelast (y :: l)).
  simpl. rewrite Hx. now apply IH.
Qed.

Lemma forallb_last : forall (A : Type) (p : A -> bool) l dflt,
  forallb p l = true -> p dflt = true -> p (last l dflt) = true.
Proof.
  induction l as [|x l IH]; intros dflt H Hd; [exact Hd|].
  simpl in H. apply andb_true_iff in H. destruct H as [Hx Hl].
  destruct l as [|y l]; [exact Hx|]. now apply IH.
Qed.

Lemma encodable_update_last : forall note items,
  encodable note = true -> forallb encodable items = true ->
  forallb encodable (update_last (merged note) items) = true.
Proof.
  intros note items Hn Hi. unfold update_last.
  rewrite forallb_app, (forallb_removelast _ _ _ Hi). simpl.
  rewrite encodable_merged; auto.
  now apply forallb_last.
Qed.

(** What [write_note] saves, by what the load saw. *)
Lemma write_note_saves : forall note d items,
  fst (load_notes d) = JArray items ->
  snd (write_note note d)
  = save_notes (match items with
                | [] => [note]
                | _ => update_last (merged note) items
                end) (snd (load_notes d)).
Proof.
  intros note d items Hl. unfold write_note.
  destruct (load_notes d) as [notes d1]. simpl in *. subst notes.
  now destruct items.
Qed.

(** C2, counterexample. The claim fails without conditions on the
    texts. On an empty store that can be read and written, [write_note]
    with a lone surrogate leaves no entry, not one. On a store whose one
    entry is a lone surrogate, [write_note] with a plain note leaves no
    entry either: the count is not kept. *)
Lemma write_note_claim_needs_conditions :
  ~ (forall (note : text) (d : Disk),
       readable d = true -> writable d = true ->
       fst (load_notes d) = JArray [] ->
       fst (load_notes (snd (write_note note d))) = JArray [note])
  /\ ~ (forall (note : text) (d : Disk) (items : list text),
          readable d = true -> writable d = true ->
          items <> [] -> fst (load_notes d) = JArray items ->
          exists items',
            fst (load_notes (snd (write_note note d))) = JArray items'
            /\ List.length items' = List.length items).
Proof.
  split.
  - intros H.
    specialize (H [Surrogate (false, false, false) "000"%char]
                  {| body := None; readable := true; writable := true |}
                  eq_refl eq_refl eq_refl).
    discriminate H.
  - intros H.
    destruct (H (lit "eggs")
                {| body := Some (Document
                                   (JArray [[Surrogate (false, false, false)
                                               "000"%char]]));
                   readable := true; writable := true |}
                [[Surrogate (false, false, false) "000"%char]]
                eq_refl eq_refl) as (items' & Hload & Hlen).
    + discriminate.
    + reflexivity.
    + vm_compute in Hload. injection Hload as <-. discriminate Hlen.
Qed.

(** C2, amended. On a note file that can be read and written, with
    texts that UTF-8 can encode: when the store is empty, [write_note s]
    answers [Note added.] and the store then holds the one entry [s]; when
    the store holds entries, [write_note s] answers [Note updated.], the
    number of entries and all entries but the last stay, and the last
    entry becomes the old last entry without its trailing white space, a
    newline, and [s] without its leading white space. *)
Theorem write_note_effect :
  forall (note : text) (d : Disk),
  readable d = true -> writable d = true ->
  encodable note = true ->
  (fst (load_notes d) = JArray [] ->
   fst (write_note note d) = Returned (lit "Note added.")
   /\ fst (load_notes (snd (write_note note d))) = JArray [note])
  /\ (forall items, items <> [] -> fst (load_notes d) = JArray items ->
      forallb encodable items = true ->
      fst (write_note note d) = Returned (lit "Note updated.")
      /\ exists items',
           fst (load_notes (snd (write_note note d))) = JArray items'
           /\ List.length items' = List.length items
           /\ removelast items' = removelast items
           /\ last items' []
              = cat (rstrip (last items [])) (cat nl (lstrip note))).
Proof.
  intros note d Hr Hw Hn.
  assert (Hr1 : readable (snd (load_notes d)) = true)
    by (unfold load_notes; now rewrite load_store_readable).
  assert (Hw1 : writable (snd (load_notes d)) = true)
    by (unfold load_notes; now rewrite load_store_writable).
  split.
  - intros Hl. split.
    + unfold write_note. destruct (load_notes d) as [notes d1].
      simpl in Hl. now subst notes.
    + rewrite (write_note_saves note d [] Hl).
      unfold load_notes, save_notes.
      rewrite StoreSpec.load_after_save; auto.
      simpl. now rewrite Hn.
  - intros items Hne Hl Hi. split.
    + unfold write_note. destruct (load_notes d) as [notes d1].
      simpl in Hl. subst notes. destruct items; [congruence|reflexivity].
    + exists (update_last (merged note) items).
      rewrite (write_note_saves note d items Hl).
      destruct items as [|x items]; [congruence|].
      unfold load_notes at 1, save_notes.
      rewrite StoreSpec.load_after_save;
        auto using encodable_update_last.
      repeat split.
      * now apply update_last_length.
      * apply update_last_front.
      * apply update_last_last.
Qed.

Lemma write_note_effect_witness :
  fst (load_notes (snd (write_note (lit "  eggs") Sample.healthy_empty)))
  = JArray [lit "  eggs"]
  /\ exists items',
       fst (load_notes
              (snd (write_note (lit "  eggs")
                      (set_body Sample.healthy_empty
                         (Document (JArray [lit "shop"; lit "milk  "]))))))
       = JArray items'
       /\ List.length items' = 2
       /\ removelast items' = [lit "shop"]
       /\ last items' [] = cat (lit "milk") (cat nl (lit "eggs")).
Proof.
  split.
  - destruct (write_note_effect (lit "  eggs") Sample.healthy_empty
                eq_refl eq_refl eq_refl) as [Hnew _].
    apply Hnew. reflexivity.
  - destruct (write_note_effect (lit "  eggs")
                (set_body Sample.healthy_empty
                   (Document (JArray [lit "shop"; lit "milk  "])))
                eq_refl eq_refl eq_refl) as [_ Hold].
    destruct (Hold [lit "shop"; lit "milk  "]) as [_ Hex].
    + discriminate.
    + reflexivity.
    + reflexivity.
    + exact Hex.
Defined.

End NotesSpec.

(** ** Exceptions at the tool boundary *)

Module BoundarySpec.
Import PyText Tasks.

(** The task tools return a string whenever the load hands back a list of
    strings: no file, an unreadable or malformed file, or a JSON array. *)
Lemma task_tools_return_on_arrays : forall o d items,
  fst (load_tasks d) = JArray items ->
  exists answer, fst (call o d) = Returned answer.
Proof.
  intros o d items Hl. destruct o as [t| |]; simpl.
  - unfold add_task. destruct (load_tasks d) as [tasks d1]. simpl in Hl.
    subst tasks. simpl. eauto.
  - unfold list_tasks. destruct (load_tasks d) as [tasks d1]. simpl in Hl.
    subst tasks. destruct items; simpl; eauto.
  - unfold clear_tasks. simpl. eauto.
Qed.

(** C6, at the failing input. With a [todo.json] that holds the JSON
    object [{}], [add_task] does not return a string: the [AttributeError]
    of [tasks.append] leaves the tool, and the file is as before.  The
    same happens for every task and every JSON object in the file. *)
Theorem add_task_lets_exception_escape :
  (let d := {| body := Some (Document (JObject []));
               readable := true; writable := true |} in
   add_task (lit "buy milk") d
   = (Raised (AttributeError "'dict' object has no attribute 'append'"), d))
  /\ (forall (task : text) (keys : list text) (w : bool),
        let d := {| body := Some (Document (JObject keys));
                    readable := true; writable := w |} in
        exists e, add_task task d = (Raised e, d)).
Proof.
  split.
  - reflexivity.
  - intros task keys w d. unfold add_task, load_tasks, load_store.
    simpl. eauto.
Qed.

End BoundarySpec.

(** ** The natural-language path resolver *)

Module PathsSpec.
Import Paths.

Lemma first_match_none : forall nl table,
  first_match nl table = None ->
  forall key val, In (key, val) table -> PyStr.contains key nl = false.
Proof.
  induction table as [|[k v] table IH]; intros H key val Hin.
  - destruct Hin.
  - simpl in H. destruct (PyStr.contains k nl) eqn:Ek; [discriminate|].
    destruct Hin as [[= <- <-]|Hin]; eauto.
Qed.

(** First match wins: the value returned is the one of the earliest key,
    in table order, that occurs in the input. *)
Lemma first_match_earliest : forall nl before key val after,
  (forall k v, In (k, v) before -> PyStr.contains k nl = false) ->
  PyStr.contains key nl = true ->
  first_match nl (before ++ (key, val) :: after) = Some val.
Proof.
  induction before as [|[k v] before IH]; intros key val after Hb Hk; simpl.
  - now rewrite Hk.
  - rewrite (Hb k v (or_introl eq_refl)). apply IH; auto.
    intros k' v' Hin. apply (Hb k' v'). now right.
Qed.

Lemma first_match_some : forall nl table val,
  first_match nl table = Some val ->
  exists before key after,
    table = (before ++ (key, val) :: after)%list
    /\ PyStr.contains key nl = true
    /\ (forall k v, In (k, v) before -> PyStr.contains k nl = false).
Proof.
  induction table as [|[k v] table IH]; intros val H; [discriminate|].
  simpl in H. destruct (PyStr.contains k nl) eqn:Ek.
  - injection H as <-. exists [], k, table. split; [reflexivity|].
    split; [exact Ek|]. intros ? ? [].
  - destruct (IH val H) as (before & key & after & -> & Hk & Hb).
    exists ((k, v) :: before), key, after. split; [reflexivity|].
    split; [exact Hk|]. intros k' v' [[= <- <-]|Hin]; eauto.
Qed.

(** The resolver in two cases only: the value of the first matching key,
    or the normalised input. The two compound branches never decide. *)
Lemma infer_path_cases : forall os s,
  infer_path_from_natural_language os s
  = match first_match (norm s) (mappings os) with
    | Some val => val
    | None => norm s
    end.
Proof.
  intros os s. unfold infer_path_from_natural_language.
  destruct (first_match (norm s) (mappings os)) eqn:E; [reflexivity|].
  rewrite (first_match_none _ _ E "c drive" c_drive)
    by (unfold mappings; simpl; tauto).
  rewrite (first_match_none _ _ E "d drive" d_drive)
    by (unfold mappings; simpl; tauto).
  reflexivity.
Qed.

(** When several keys occur in the input the earliest in table order
    determines the result. *)
Lemma infer_path_first_key_wins : forall os s before key val after,
  mappings os = (before ++ (key, val) :: after)%list ->
  (forall k v, In (k, v) before -> PyStr.contains k (norm s) = false) ->
  PyStr.contains key (norm s) = true ->
  infer_path_from_natural_language os s = val.
Proof.
  intros os s before key val after Ht Hb Hk.
  rewrite infer_path_cases, Ht.
  now rewrite (first_match_earliest _ before key val after Hb Hk).
Qed.

(** An input that is already in lower case and without surrounding white
    space, and in which no key occurs, is returned as it is. *)
Lemma infer_path_literal : forall os s,
  norm s = s -> first_match s (mappings os) = None ->
  infer_path_from_natural_language os s = s.
Proof.
  intros os s Hn Hm. rewrite infer_path_cases, Hn, Hm. reflexivity.
Qed.

(** C7, at the failing input. No key of the table occurs in the input
    [/Tmp/Data] followed by a space, in either letter case, and neither
    compound case applies; the resolver returns [/tmp/data], which is not
    the input. *)
Theorem unmatched_input_is_rewritten :
  forall os : Os,
  let input := "/Tmp/Data " in
  forallb (fun kv => negb (PyStr.contains (fst kv) input)
                     && negb (PyStr.contains (fst kv) (norm input)))
    (mappings os) = true
  /\ infer_path_from_natural_language os input = "/tmp/data"
  /\ infer_path_from_natural_language os input <> input.
Proof.
  intros os. repeat split. discriminate.
Qed.

(** C8, on the code. For every system and input the resolver returns the
    value of the first matching key or, when no key matches, the
    normalised input: the combined path of the compound cases is never
    what decides. On the input [c drive in the documents folder] the key
    [documents folder] decides, and the result differs from the combined
    path. *)
Theorem compound_cases_never_decide :
  (forall (os : Os) (s : string),
     infer_path_from_natural_language os s
     = match first_match (norm s) (mappings os) with
       | Some val => val
       | None => norm s
       end)
  /\ (let s := "c drive in the documents folder" in
      PyStr.contains "c drive" (norm s) = true
      /\ PyStr.contains "documents" (norm s) = true
      /\ infer_path_from_natural_language Sample.os s = "/home/yogi/Documents"
      /\ infer_path_from_natural_language Sample.os s
         <> compound Sample.os c_drive).
Proof.
  split; [exact infer_path_cases|].
  repeat split. discriminate.
Qed.

End PathsSpec.

(** ** File search and guarded read *)

Module FilesSpec.
Import Files.

Lemma has_file_In : forall filename files,
  has_file filename files = true <-> In filename files.
Proof.
  intros filename files. unfold has_file. rewrite existsb_exists. split.
  - intros (x & Hin & Heq). apply String.eqb_eq in Heq. now subst.
  - intros Hin. exists filename. split; auto. apply String.eqb_refl.
Qed.

(** One step of the loop, by whether the directory is a hit. *)
Lemma scan_cons : forall os filename top max_depth root files rest,
  scan os filename top max_depth ((root, files) :: rest)
  = if hit os filename top max_depth (root, files)
    then Some (Paths.join os root filename, root)
    else scan os filename top max_depth rest.
Proof.
  intros. simpl. unfold hit. simpl.
  destruct (Z.of_nat (depth os top root) >? max_depth)%Z eqn:E.
  - apply Z.gtb_lt in E.
    destruct (Z.leb_spec (Z.of_nat (depth os top root)) max_depth);
      [lia|reflexivity].
  - destruct (Z.leb_spec (Z.of_nat (depth os top root)) max_depth) as [_|H].
    + reflexivity.
    + apply Z.lt_gt, Z.gtb_gt in H. congruence.
Qed.

(** The loop returns the first hit of the walk, and nothing when the walk
    has no hit. *)
Lemma scan_first_hit : forall os filename top max_depth entries,
  match scan os filename top max_depth entries with
  | Some (path, root) =>
      exists before files after,
        entries = (before ++ (root, files) :: after)%list
        /\ forallb (fun e => negb (hit os filename top max_depth e)) before
           = true
        /\ hit os filename top max_depth (root, files) = true
        /\ path = Paths.join os root filename
  | None =>
      forallb (fun e => negb (hit os filename top max_depth e)) entries
      = true
  end.
Proof.
  intros os filename top max_depth.
  induction entries as [|[root files] rest IH].
  - reflexivity.
  - rewrite scan_cons.
    destruct (hit os filename top max_depth (root, files)) eqn:Eh.
    + exists [], files, rest. auto.
    + destruct (scan os filename top max_depth rest) as [[path r]|].
      * destruct IH as (before & fs & after & -> & Hb & Hh & ->).
        exists ((root, files) :: before), fs, after.
        simpl. rewrite Eh. auto.
      * simpl. now rewrite Eh.
Qed.

Lemma hit_spec : forall os filename top max_depth root files,
  hit os filename top max_depth (root, files) = true
  <-> (Z.of_nat (depth os top root) <= max_depth)%Z /\ In filename files.
Proof.
  intros. unfold hit. simpl.
  now rewrite andb_true_iff, Z.leb_le, has_file_In.
Qed.

(** The separator count of the source is the number of characters of
    the text that are the separator. *)
Lemma count_sep_filter : forall c s,
  Paths.count_sep c s
  = List.length (filter (fun a => Ascii.eqb a c) (list_ascii_of_string s)).
Proof.
  intros c. induction s as [|a s IH]; [reflexivity|].
  simpl. destruct (Ascii.eqb a c); simpl; now rewrite IH.
Qed.

(** C9. For every filename, root directory and [max_depth], [find_file]
    returns a result.  When it returns a path and a directory, the
    directory is the first one of the walk that has a file of that name
    and whose path relative to the root has at most [max_depth]
    separator characters, and the path is the file in that directory;
    every earlier directory of the walk with such a file has more
    separators than [max_depth].  When it returns the not-found signal,
    every directory of the walk that has such a file has more separators
    than [max_depth]. *)
Theorem find_file_first_within_depth :
  forall (os : Os) (filename search_dir : string) (max_depth : Z),
  let top := abspath os search_dir in
  let separators (root : string) : Z :=
    Z.of_nat
      (List.length
         (filter (fun a => Ascii.eqb a (sep os))
            (list_ascii_of_string (relpath os root top)))) in
  (forall path root,
     find_file os filename search_dir max_depth = Some (path, root) ->
     exists before files after,
       walk os top = (before ++ (root, files) :: after)%list
       /\ In filename files
       /\ path = Paths.join os root filename
       /\ (separators root <= max_depth)%Z
       /\ (forall r fs, In (r, fs) before -> In filename fs ->
             (separators r > max_depth)%Z))
  /\ (find_file os filename search_dir max_depth = None ->
      forall r fs, In (r, fs) (walk os top) -> In filename fs ->
        (separators r > max_depth)%Z).
Proof.
  intros os filename search_dir max_depth top separators.
  unfold find_file. fold top.
  pose proof (scan_first_hit os filename top max_depth (walk os top)) as H.
  assert (Hsep : forall r, separators r = Z.of_nat (depth os top r)).
  { intros r. unfold separators, depth. now rewrite count_sep_filter. }
  assert (Hmiss : forall l,
    forallb (fun e => negb (hit os filename top max_depth e)) l = true ->
    forall r fs, In (r, fs) l -> In filename fs ->
      (separators r > max_depth)%Z).
  { intros l Hl r fs Hin Hf. rewrite forallb_forall in Hl.
    specialize (Hl _ Hin). apply negb_true_iff in Hl. rewrite Hsep.
    destruct (Z.le_gt_cases (Z.of_nat (depth os top r)) max_depth)
      as [Hle|Hgt]; [|lia].
    assert (hit os filename top max_depth (r, fs) = true)
      by (apply hit_spec; split; assumption).
    congruence. }
  split.
  - intros path root Hfound. rewrite Hfound in H.
    destruct H as (before & files & after & Hw & Hb & Hh & Hp).
    apply hit_spec in Hh. destruct Hh as [Hd Hf].
    exists before, files, after.
    split; [exact Hw|]. split; [exact Hf|]. split; [exact Hp|].
    split; [now rewrite Hsep|]. exact (Hmiss before Hb).
  - intros Hnone. rewrite Hnone in H. exact (Hmiss _ H).
Qed.

Lemma find_file_first_within_depth_witness :
  (exists before files after,
     walk Sample.os "/srv"
     = (before ++ ("/srv/src/a/b", files) :: after)%list
     /\ In "deep.txt" files
     /\ "/srv/src/a/b/deep.txt" = Paths.join Sample.os "/srv/src/a/b" "deep.txt"
     /\ (Z.of_nat
           (List.length
              (filter (fun a => Ascii.eqb a "/"%char)
                 (list_ascii_of_string "src/a/b"))) <= 2)%Z
     /\ (forall r fs, In (r, fs) before -> In "deep.txt" fs ->
           (Z.of_nat
              (List.length
                 (filter (fun a => Ascii.eqb a "/"%char)
                    (list_ascii_of_string (Sample.rel r "/srv")))) > 2)%Z))
  /\ (forall r fs,
        In (r, fs) (walk Sample.os "/srv") -> In "deep.txt" fs ->
        (Z.of_nat
           (List.length
              (filter (fun a => Ascii.eqb a "/"%char)
                 (list_ascii_of_string (Sample.rel r "/srv")))) > 1)%Z).
Proof.
  split.
  - exact (proj1 (find_file_first_within_depth Sample.os "deep.txt" "." 2)
             "/srv/src/a/b/deep.txt" "/srv/src/a/b" eq_refl).
  - exact (proj2 (find_file_first_within_depth Sample.os "deep.txt" "." 1)
             eq_refl).
Defined.







Lemma join_nonempty : forall os a b, b <> "" -> Paths.join os a b <> "".
Proof.
  intros os a b Hb. unfold Paths.join.
  destruct (Paths.starts_with (sep os) b); [exact Hb|].
  destruct (String.eqb a "" || Paths.ends_with (sep os) a).
  - destruct a; simpl; [exact Hb|discriminate].
  - destruct a; discriminate.
Qed.

Lemma scan_with_contents : forall os bytes_of text_of filename top m entries,
  scan (with_contents os bytes_of text_of) filename top m entries
  = scan os filename top m entries.
Proof.
  intros os bytes_of text_of filename top m.
  induction entries as [|[root files] rest IH]; [reflexivity|].
  simpl. rewrite IH. reflexivity.
Qed.

Lemma find_file_with_contents : forall os bytes_of text_of filename dir m,
  find_file (with_contents os bytes_of text_of) filename dir m
  = find_file os filename dir m.
Proof. intros. unfold find_file. apply scan_with_contents. Qed.

Lemma infer_path_with_contents : forall os bytes_of text_of s,
  Paths.infer_path_from_natural_language (with_contents os bytes_of text_of) s
  = Paths.infer_path_from_natural_language os s.
Proof. reflexivity. Qed.




End FilesSpec.

(** ** Password generation *)

Module PasswordSpec.
Import Password.

Lemma characters_allowed :
  forallb allowed (list_ascii_of_string characters) = true.
Proof. vm_compute. reflexivity. Qed.

Lemma get_In : forall s n c,
  String.get n s = Some c -> In c (list_ascii_of_string s).
Proof.
  induction s as [|c0 s IH]; intros n c H; [discriminate|].
  destruct n as [|n]; simpl in *.
  - injection H as ->. now left.
  - right. eauto.
Qed.

(** Every pick is a character of [characters]. *)
Lemma choice_In : forall draw,
  In (choice draw) (list_ascii_of_string characters).
Proof.
  intros draw. unfold choice.
  destruct (String.get (draw mod String.length characters) characters)
    as [c|] eqn:E.
  - exact (get_In _ _ _ E).
  - vm_compute. now left.
Qed.

Lemma string_of_list_ascii_length : forall l,
  String.length (string_of_list_ascii l) = List.length l.
Proof. induction l; simpl; auto. Qed.

Lemma picks_length : forall source n,
  String.length (picks source n) = n.
Proof.
  intros. unfold picks.
  now rewrite string_of_list_ascii_length, length_map, length_seq.
Qed.

Lemma picks_chars : forall source n,
  Forall (fun c => In c (list_ascii_of_string characters) /\ allowed c = true)
    (list_ascii_of_string (picks source n)).
Proof.
  intros. unfold picks. rewrite list_ascii_of_string_of_list_ascii.
  apply Forall_forall. intros c Hin. apply in_map_iff in Hin.
  destruct Hin as (k & <- & _). split; [apply choice_In|].
  pose proof characters_allowed as H. rewrite forallb_forall in H.
  apply H, choice_In.
Qed.

(** C5. Whatever the random source gives: for a length below 6 the tool
    returns the fixed rejection message; for a length of 6 or more, 20
    among them, it returns a string of exactly that many characters, each
    one a character of letters + digits + punctuation, that is an ASCII
    letter, digit or punctuation mark. *)
Theorem generate_password_spec :
  forall (source : nat -> nat) (length : Z),
  ((length < 6)%Z ->
   generate_password source length
   = "Password must be at least 6 characters long.")
  /\ ((6 <= length)%Z ->
      Z.of_nat (String.length (generate_password source length)) = length
      /\ Forall (fun c => In c (list_ascii_of_string characters)
                          /\ allowed c = true)
           (list_ascii_of_string (generate_password source length)))
  /\ String.length (generate_password source 20) = 20.
Proof.
  intros source length. unfold generate_password. split; [|split].
  - intros H. apply Z.ltb_lt in H. now rewrite H.
  - intros H. destruct (Z.ltb_spec length 6); [lia|]. split.
    + rewrite picks_length. lia.
    + apply picks_chars.
  - apply picks_length.
Qed.

Lemma generate_password_spec_witness :
  generate_password (fun k => 7 * k + 50) 5
  = "Password must be at least 6 characters long."
  /\ Z.of_nat (String.length (generate_password (fun k => 7 * k + 50) 6)) = 6%Z
  /\ String.length (generate_password (fun k => 7 * k + 50) 20) = 20.
Proof.
  split; [|split].
  - apply (generate_password_spec (fun k => 7 * k + 50) 5). lia.
  - apply (generate_password_spec (fun k => 7 * k + 50) 6). lia.
  - apply (generate_password_spec (fun k => 7 * k + 50) 20).
Defined.

End PasswordSpec.

(** * Further properties *)

(** ** The store file, continued *)

Module StoreExtra.

(** X1. Loading is stable: a second load right after a load returns the
    same value and leaves the same disk as the first one did. *)
Theorem load_twice : forall d : Disk,
  load_store (snd (load_store d)) = load_store d.
Proof.
  intros d. unfold load_store at 2 3.
  destruct (body d) as [[raw|text|v]|] eqn:Hb;
    destruct (readable d) eqn:Hr; simpl;
    try (unfold load_store; rewrite Hb, Hr; reflexivity);
    try (unfold load_store; rewrite Hb; reflexivity).
  unfold save_store. destruct (writable d) eqn:Hw.
  - unfold load_store. simpl. rewrite Hr. reflexivity.
  - unfold load_store. rewrite Hb, Hr. unfold save_store. now rewrite Hw.
Qed.

(** X3. A load changes the disk exactly when the file is readable,
    writable and holds text that is not JSON. *)
Theorem load_changes_disk_iff : forall d : Disk,
  snd (load_store d) <> d
  <-> exists text, body d = Some (Malformed text)
                   /\ readable d = true /\ writable d = true.
Proof.
  intros d. split.
  - apply StoreSpec.load_writes_only_on_decode_error.
  - intros (text & Hb & Hr & Hw) Heq.
    unfold load_store in Heq. rewrite Hb, Hr in Heq. simpl in Heq.
    unfold save_store in Heq. rewrite Hw in Heq.
    apply (f_equal body) in Heq. simpl in Heq. congruence.
Qed.

End StoreExtra.

(** ** The task store, continued *)

Module TasksExtra.
Import PyText Tasks TasksFacts.

(** X4. On a file that cannot be written, [add_task] still answers
    [Task added: t], yet the disk is as before and the listing that
    follows is the one from before the call. *)
Theorem add_task_on_read_only_store :
  forall (t : text) (d : Disk) (items : list text),
  writable d = false ->
  fst (load_tasks d) = JArray items ->
  add_task t d = (Returned (cat (lit "Task added: ") t), d)
  /\ fst (list_tasks (snd (add_task t d))) = fst (list_tasks d).
Proof.
  intros t d items Hw Hl.
  assert (Hd : snd (load_tasks d) = d).
  { unfold load_tasks, load_store, save_store. rewrite Hw.
    destruct (body d) as [[raw|text|v]|]; destruct (readable d); reflexivity. }
  assert (Ha : add_task t d = (Returned (cat (lit "Task added: ") t), d)).
  { unfold add_task. destruct (load_tasks d) as [tasks d1]. simpl in *.
    subst tasks d1. unfold save_tasks, save_store. now rewrite Hw. }
  split; [exact Ha|]. now rewrite Ha.
Qed.

Lemma add_task_on_read_only_store_witness :
  let d := {| body := Some (Document (JArray [lit "call mum"]));
              readable := true; writable := false |} in
  add_task (lit "buy milk") d = (Returned (lit "Task added: buy milk"), d)
  /\ fst (list_tasks (snd (add_task (lit "buy milk") d)))
     = fst (list_tasks d).
Proof.
  apply (add_task_on_read_only_store (lit "buy milk") _ [lit "call mum"]);
    reflexivity.
Defined.

(** X5. On a file that can be read and written and holds the tasks [ts],
    with stored and added tasks that UTF-8 can encode, any sequence of
    adds, listings and clears leaves the file holding the tasks that the
    sequence gives when read as: an add puts its task last, a clear drops
    all tasks, a listing changes nothing; and the listing that follows
    shows exactly those tasks. *)
Theorem tasks_after_calls :
  forall (ops : list Op) (d : Disk) (ts : list text),
  readable d = true -> writable d = true ->
  forallb encodable ts = true -> forallb encodable_op ops = true ->
  holds d ts ->
  holds (run ops d) (pending ops ts)
  /\ fst (list_tasks (run ops d)) = Returned (listing (pending ops ts)).
Proof.
  intros ops d ts Hr Hw Hts Hops Hh.
  assert (H : holds (run ops d) (pending ops ts))
    by now apply TasksSpec.run_holds.
  split; [exact H|].
  apply TasksSpec.list_tasks_holds; [|exact H]. now rewrite run_readable.
Qed.

Lemma tasks_after_calls_witness :
  let d := set_body Sample.healthy_empty (Document (JArray [lit "old"])) in
  let ops := [Add (lit "a"); List; Clear; Add (lit "b"); List;
              Add (lit "c")] in
  holds (run ops d) [lit "b"; lit "c"]
  /\ fst (list_tasks (run ops d))
     = Returned (cat (lit "1. b") (cat nl (lit "2. c"))).
Proof.
  apply (tasks_after_calls
           [Add (lit "a"); List; Clear; Add (lit "b"); List; Add (lit "c")]
           (set_body Sample.healthy_empty (Document (JArray [lit "old"])))
           [lit "old"]).
  - reflexivity.
  - reflexivity.
  - reflexivity.
  - reflexivity.
  - left. reflexivity.
Defined.

(** X27. A task that UTF-8 cannot encode, such as one with a lone
    surrogate, costs the whole list: on a file that can be read and
    written and holds tasks, [add_task] answers [Task added: t], the file
    is left with text that is not JSON, and the load that follows finds
    no task and resets the file to the empty array. *)
Theorem unencodable_task_wipes_store :
  forall (t : text) (d : Disk) (items : list text),
  readable d = true -> writable d = true ->
  body d = Some (Document (JArray items)) ->
  encodable t = false ->
  fst (add_task t d) = Returned (cat (lit "Task added: ") t)
  /\ (exists partial, body (snd (add_task t d)) = Some (Malformed partial))
  /\ fst (list_tasks (snd (add_task t d)))
     = Returned (lit "No tasks in the list.")
  /\ body (snd (list_tasks (snd (add_task t d))))
     = Some (Document (JArray [])).
Proof.
  intros t d items Hr Hw Hb Ht.
  assert (He : forallb encodable (items ++ [t]) = false).
  { rewrite forallb_app. simpl. rewrite Ht. now rewrite andb_false_r. }
  assert (Ha : add_task t d
               = (Returned (cat (lit "Task added: ") t),
                  save_store (items ++ [t]) d)).
  { unfold add_task, load_tasks. now rewrite (load_store_document d _ Hb Hr). }
  rewrite Ha. simpl.
  assert (Hs : save_store (items ++ [t]) d
               = set_body d (Malformed
                               (Dump.written_before true (items ++ [t])))).
  { unfold save_store. now rewrite Hw, He. }
  rewrite Hs. split; [reflexivity|]. split; [eexists; reflexivity|].
  unfold list_tasks, load_tasks, load_store, save_store. simpl.
  rewrite Hr, Hw. simpl. split; reflexivity.
Qed.

Lemma unencodable_task_wipes_store_witness :
  let d := set_body Sample.healthy_empty
             (Document (JArray [lit "buy milk"])) in
  let t := [Surrogate (false, false, false) "000"%char] in
  body (snd (add_task t d))
  = Some (Malformed ("[" ++ PyStr.nl ++ "  " ++ PyStr.dquote ++ "buy milk"
                     ++ PyStr.dquote))
  /\ fst (list_tasks (snd (add_task t d)))
     = Returned (lit "No tasks in the list.").
Proof.
  destruct (unencodable_task_wipes_store
              [Surrogate (false, false, false) "000"%char]
              (set_body Sample.healthy_empty
                 (Document (JArray [lit "buy milk"])))
              [lit "buy milk"] eq_refl eq_refl eq_refl eq_refl)
    as (_ & _ & Hlist & _).
  split; [reflexivity|exact Hlist].
Defined.

End TasksExtra.

(** ** The note store, continued *)

Module NotesExtra.
Import PyText Notes NoteCalls.

Lemma lines_cons_head : forall x rest,
  exists tail,
    join nl (Tasks.lines (x :: rest)) = Latin "1"%char :: tail.
Proof.
  intros x rest. unfold Tasks.lines, PyStr.enumerate. simpl.
  destruct (map _ _); eexists; reflexivity.
Qed.

(** X6. On a note file that can be read and holds a JSON array,
    [show_notes] writes nothing and returns the fixed message
    [No notes saved.] exactly when the array has no entry; otherwise it
    returns the numbered lines, also when the entries are empty strings. *)
Theorem show_notes_listing :
  forall (d : Disk) (items : list text),
  readable d = true ->
  body d = Some (Document (JArray items)) ->
  show_notes d
  = (Returned (match items with
               | [] => lit "No notes saved."
               | _ => join nl (Tasks.lines items)
               end), d)
  /\ (fst (show_notes d) = Returned (lit "No notes saved.") <-> items = []).
Proof.
  intros d items Hr Hb.
  assert (Hs : show_notes d
               = (Returned (match items with
                            | [] => lit "No notes saved."
                            | _ => join nl (Tasks.lines items)
                            end), d)).
  { unfold show_notes, load_notes. rewrite (load_store_document d _ Hb Hr).
    destruct items as [|x rest]; [reflexivity|].
    destruct (lines_cons_head x rest) as [tail ->]. reflexivity. }
  split; [exact Hs|]. rewrite Hs. simpl. split.
  - destruct items as [|x rest]; [reflexivity|].
    destruct (lines_cons_head x rest) as [tail ->]. discriminate.
  - now intros ->.
Qed.

Lemma show_notes_listing_witness :
  let d := set_body Sample.healthy_empty
             (Document (JArray [lit ""; lit "b"])) in
  show_notes d = (Returned (cat (lit "1. ") (cat nl (lit "2. b"))), d).
Proof.
  apply (show_notes_listing
           (set_body Sample.healthy_empty
              (Document (JArray [lit ""; lit "b"])))
           [lit ""; lit "b"]); reflexivity.
Defined.

(** One [write_note] on a healthy file that holds an array. *)
Lemma write_note_document : forall note d items,
  readable d = true -> writable d = true ->
  body d = Some (Document (JArray items)) ->
  encodable note = true -> forallb encodable items = true ->
  snd (write_note note d)
  = set_body d (Document (JArray (match items with
                                  | [] => [note]
                                  | _ => update_last (merged note) items
                                  end))).
Proof.
  intros note d items Hr Hw Hb Hn Hi. unfold write_note, load_notes.
  rewrite (load_store_document d _ Hb Hr).
  unfold save_notes, save_store. rewrite Hw.
  destruct items as [|x items].
  - simpl. now rewrite Hn.
  - now rewrite (NotesSpec.encodable_update_last note (x :: items) Hn Hi).
Qed.

Lemma write_note_absent : forall note d,
  writable d = true -> body d = None -> encodable note = true ->
  snd (write_note note d) = set_body d (Document (JArray [note])).
Proof.
  intros note d Hw Hb Hn. unfold write_note, load_notes.
  rewrite (load_store_absent d Hb). simpl.
  unfold save_notes, save_store. rewrite Hw. simpl. now rewrite Hn.
Qed.

Lemma write_all_document : forall notes d items,
  readable d = true -> writable d = true ->
  body d = Some (Document (JArray items)) -> items <> [] ->
  forallb encodable items = true -> forallb encodable notes = true ->
  body (write_all notes d)
  = Some (Document
            (JArray (removelast items
                     ++ [merge_all (last items []) notes])%list)).
Proof.
  induction notes as [|n notes IH]; intros d items Hr Hw Hb Hne Hi Hns.
  - simpl. rewrite Hb. unfold merge_all. simpl.
    now rewrite <- app_removelast_last.
  - simpl in Hns. apply andb_true_iff in Hns. destruct Hns as [Hn Hns].
    unfold write_all. simpl. fold (write_all notes (snd (write_note n d))).
    rewrite (write_note_document n d items Hr Hw Hb Hn Hi).
    destruct items as [|x items]; [congruence|].
    rewrite (IH _ (update_last (merged n) (x :: items))); auto.
    + now rewrite NotesSpec.update_last_front, NotesSpec.update_last_last.
    + unfold update_last. intros H. now apply app_eq_nil in H.
    + now apply NotesSpec.encodable_update_last.
Qed.

Lemma write_note_readable : forall note d,
  readable (snd (write_note note d)) = readable d.
Proof.
  intros note d. unfold write_note, load_notes, save_notes.
  pose proof (load_store_readable d) as H.
  destruct (load_store d) as [[[|x items]|[|k keys]|[|n|n]] d1];
    simpl in *; rewrite ?save_store_readable; exact H.
Qed.

Lemma write_all_readable : forall notes d,
  readable (write_all notes d) = readable d.
Proof.
  induction notes as [|n notes IH]; intros d; [reflexivity|].
  unfold write_all in *. simpl. rewrite IH. apply write_note_readable.
Qed.

(** X7. Starting from an empty note store that can be read and written,
    any number of [write_note] calls, one at least, with notes that UTF-8
    can encode, leaves exactly one entry: the first note with each later
    note merged onto it in turn (old text without trailing white space,
    newline, new text without leading white space). *)
Theorem writes_from_empty_make_one_note :
  forall (first : text) (rest : list text) (d : Disk),
  readable d = true -> writable d = true ->
  Tasks.empty_store d ->
  encodable first = true -> forallb encodable rest = true ->
  fst (load_notes (write_all (first :: rest) d))
  = JArray [merge_all first rest].
Proof.
  intros first rest d Hr Hw He Hf Hrest.
  assert (H1 : snd (write_note first d)
               = set_body d (Document (JArray [first]))).
  { destruct He as [Hb|Hb].
    - now apply write_note_absent.
    - now rewrite (write_note_document first d [] Hr Hw Hb). }
  assert (Hb : body (write_all (first :: rest) d)
               = Some (Document (JArray [merge_all first rest]))).
  { unfold write_all. simpl. fold (write_all rest (snd (write_note first d))).
    rewrite H1. rewrite (write_all_document rest _ [first]); auto.
    - discriminate.
    - simpl. now rewrite Hf. }
  unfold load_notes. rewrite (load_store_document _ _ Hb); [reflexivity|].
  now rewrite write_all_readable.
Qed.

Lemma writes_from_empty_make_one_note_witness :
  fst (load_notes
         (write_all [lit "milk  "; lit "  eggs"; lit "tea"]
            Sample.healthy_empty))
  = JArray [cat (lit "milk") (cat nl (cat (lit "eggs") (cat nl (lit "tea"))))].
Proof.
  apply (writes_from_empty_make_one_note (lit "milk  ")
           [lit "  eggs"; lit "tea"] Sample.healthy_empty).
  - reflexivity.
  - reflexivity.
  - left. reflexivity.
  - reflexivity.
  - reflexivity.
Defined.

(** X8. On a note store that can be read and written and holds at least
    one entry, with entries and notes that UTF-8 can encode, any sequence
    of [write_note] calls keeps the number of entries and every entry but
    the last; the last entry becomes the old last entry with the notes
    merged onto it in turn. *)
Theorem writes_keep_earlier_notes :
  forall (notes items : list text) (d : Disk),
  readable d = true -> writable d = true ->
  body d = Some (Document (JArray items)) -> items <> [] ->
  forallb encodable items = true -> forallb encodable notes = true ->
  exists items',
    fst (load_notes (write_all notes d)) = JArray items'
    /\ List.length items' = List.length items
    /\ removelast items' = removelast items
    /\ last items' [] = merge_all (last items []) notes.
Proof.
  intros notes items d Hr Hw Hb Hne Hi Hns.
  exists (removelast items ++ [merge_all (last items []) notes])%list.
  split; [|split; [|split]].
  - unfold load_notes.
    rewrite (load_store_document _ _
               (write_all_document notes d items Hr Hw Hb Hne Hi Hns));
      [reflexivity|].
    now rewrite write_all_readable.
  - rewrite length_app. simpl.
    rewrite (app_removelast_last [] Hne) at 2. now rewrite length_app.
  - apply removelast_last.
  - apply last_last.
Qed.

Lemma writes_keep_earlier_notes_witness :
  exists items',
    fst (load_notes
           (write_all [lit "eggs"; lit " tea"]
              (set_body Sample.healthy_empty
                 (Document (JArray [lit "shop"; lit "milk "])))))
    = JArray items'
    /\ List.length items' = 2
    /\ removelast items' = [lit "shop"]
    /\ last items' []
       = cat (lit "milk") (cat nl (cat (lit "eggs") (cat nl (lit "tea")))).
Proof.
  apply (writes_keep_earlier_notes [lit "eggs"; lit " tea"]
           [lit "shop"; lit "milk "]
           (set_body Sample.healthy_empty
              (Document (JArray [lit "shop"; lit "milk "])))).
  - reflexivity.
  - reflexivity.
  - reflexivity.
  - discriminate.
  - reflexivity.
  - reflexivity.
Defined.

End NotesExtra.

(** ** The path resolver, continued *)

Module PathsExtra.
Import Paths PyStr.

Lemma isspace_lower_char : forall c, isspace (lower_char c) = isspace c.
Proof.
  intros [[] [] [] [] [] [] [] []]; vm_compute; reflexivity.
Qed.

Lemma lower_char_idem : forall c, lower_char (lower_char c) = lower_char c.
Proof.
  intros [[] [] [] [] [] [] [] []]; vm_compute; reflexivity.
Qed.

Lemma lower_idem : forall s, lower (lower s) = lower s.
Proof.
  induction s as [|c s IH]; simpl; [reflexivity|].
  now rewrite lower_char_idem, IH.
Qed.

Lemma lower_lstrip : forall s, lower (lstrip s) = lstrip (lower s).
Proof.
  induction s as [|c s IH]; simpl; [reflexivity|].
  rewrite isspace_lower_char. destruct (isspace c); [exact IH|reflexivity].
Qed.

Lemma lower_rstrip : forall s, lower (rstrip s) = rstrip (lower s).
Proof.
  induction s as [|c s IH]; [reflexivity|].
  change (lower (String c s)) with (String (lower_char c) (lower s)).
  rewrite !PyStrFacts.rstrip_cons, <- IH, isspace_lower_char.
  destruct (rstrip s) as [|k kept]; simpl.
  - destruct (isspace c); reflexivity.
  - reflexivity.
Qed.

Lemma lower_strip : forall s, lower (strip s) = strip (lower s).
Proof. intros. unfold strip. now rewrite lower_rstrip, lower_lstrip. Qed.

Lemma rstrip_idem : forall s, rstrip (rstrip s) = rstrip s.
Proof.
  induction s as [|c s IH]; [reflexivity|].
  rewrite PyStrFacts.rstrip_cons.
  destruct (rstrip s) as [|k kept] eqn:E.
  - destruct (isspace c) eqn:Ec; [reflexivity|].
    rewrite PyStrFacts.rstrip_cons. simpl. now rewrite Ec.
  - rewrite PyStrFacts.rstrip_cons, IH. reflexivity.
Qed.

(** What [rstrip] keeps starts as the text did. *)
Lemma rstrip_head : forall c s,
  isspace c = false -> exists r, rstrip (String c s) = String c r.
Proof.
  intros c s Hc. rewrite PyStrFacts.rstrip_cons.
  destruct (rstrip s); rewrite ?Hc; eauto.
Qed.

Lemma strip_idem : forall s, strip (strip s) = strip s.
Proof.
  intros s. unfold strip.
  destruct (PyStrFacts.lstrip_split s) as (ws & _ & _ & Hhead).
  destruct (lstrip s) as [|c r] eqn:E; [reflexivity|].
  pose proof (Hhead c r eq_refl) as Hc.
  destruct (rstrip_head c r Hc) as [r' Hr].
  assert (Hl : lstrip (rstrip (String c r)) = rstrip (String c r)).
  { rewrite Hr. simpl. now rewrite Hc. }
  rewrite Hl. apply rstrip_idem.
Qed.

Lemma norm_idem : forall s, norm (norm s) = norm s.
Proof.
  intros s. unfold norm.
  now rewrite lower_strip, lower_idem, strip_idem.
Qed.

Lemma norm_lower : forall s, norm (lower s) = norm s.
Proof. intros. unfold norm. now rewrite lower_idem. Qed.

Lemma norm_strip : forall s, norm (strip s) = norm s.
Proof. intros. unfold norm. now rewrite lower_strip, strip_idem. Qed.

Lemma infer_by_norm : forall os s t,
  norm s = norm t ->
  infer_path_from_natural_language os s
  = infer_path_from_natural_language os t.
Proof.
  intros os s t H. unfold infer_path_from_natural_language. now rewrite H.
Qed.

(** X9. Letter case and surrounding white space of the input never
    matter to the resolver: the input in lower case, the input without
    surrounding white space, and the input resolve alike.  When no key
    matches, resolving the result again gives the result. *)
Theorem resolver_ignores_case_and_margins :
  forall (os : Os) (s : string),
  infer_path_from_natural_language os (lower s)
  = infer_path_from_natural_language os s
  /\ infer_path_from_natural_language os (strip s)
     = infer_path_from_natural_language os s
  /\ (first_match (norm s) (mappings os) = None ->
      infer_path_from_natural_language os
        (infer_path_from_natural_language os s)
      = infer_path_from_natural_language os s).
Proof.
  intros os s. split; [|split].
  - apply infer_by_norm, norm_lower.
  - apply infer_by_norm, norm_strip.
  - intros Hm. rewrite (PathsSpec.infer_path_cases os s), Hm.
    rewrite (PathsSpec.infer_path_cases os (norm s)), norm_idem, Hm.
    reflexivity.
Qed.

Lemma resolver_ignores_case_and_margins_witness :
  infer_path_from_natural_language Sample.os
    (infer_path_from_natural_language Sample.os "  ./Build/OUT ")
  = infer_path_from_natural_language Sample.os "  ./Build/OUT ".
Proof.
  apply (resolver_ignores_case_and_margins Sample.os "  ./Build/OUT ").
  reflexivity.
Defined.

(** X10. When several keys of the table occur in the input, the key
    that comes first in the table decides, wherever the keys stand in the
    input. *)
Theorem earliest_key_decides :
  forall (os : Os) (s : string) (before : list (string * string))
         (key val : string) (after : list (string * string)),
  mappings os = (before ++ (key, val) :: after)%list ->
  (forall k v, In (k, v) before -> contains k (norm s) = false) ->
  contains key (norm s) = true ->
  infer_path_from_natural_language os s = val.
Proof.
  intros os s before key val after Ht Hb Hk.
  rewrite PathsSpec.infer_path_cases, Ht.
  now rewrite (PathsSpec.first_match_earliest _ before key val after Hb Hk).
Qed.

Lemma earliest_key_decides_witness :
  infer_path_from_natural_language Sample.os "Music on my Desktop"
  = "/home/yogi/Desktop".
Proof.
  apply (earliest_key_decides Sample.os "Music on my Desktop"
           (firstn 4 (mappings Sample.os)) "desktop" "/home/yogi/Desktop"
           (skipn 5 (mappings Sample.os))).
  - reflexivity.
  - intros k v Hin. simpl in Hin.
    destruct Hin as [H|[H|[H|[H|[]]]]]; injection H as <- <-; reflexivity.
  - reflexivity.
Defined.

(** X11. An input in which any key of the table occurs is never
    returned as a literal path: the result is one of the paths of the
    table. *)
Theorem keyed_input_resolves_into_table :
  forall (os : Os) (s key val : string),
  In (key, val) (mappings os) ->
  contains key (norm s) = true ->
  In (infer_path_from_natural_language os s) (map snd (mappings os)).
Proof.
  intros os s key val Hin Hk. rewrite PathsSpec.infer_path_cases.
  destruct (first_match (norm s) (mappings os)) as [v|] eqn:E.
  - destruct (PathsSpec.first_match_some _ _ _ E)
      as (before & k & after & -> & _ & _).
    rewrite map_app. apply in_or_app. right. now left.
  - rewrite (PathsSpec.first_match_none _ _ E key val Hin) in Hk.
    discriminate.
Qed.

Lemma keyed_input_resolves_into_table_witness :
  In (infer_path_from_natural_language Sample.os "/srv/home-videos/2024")
     (map snd (mappings Sample.os)).
Proof.
  apply (keyed_input_resolves_into_table Sample.os "/srv/home-videos/2024"
           "home" "/home/yogi").
  - unfold mappings. simpl. tauto.
  - reflexivity.
Defined.

End PathsExtra.

(** ** File search and guarded read, continued *)

Module FilesExtra.
Import Files.

Lemma scan_none_iff : forall os filename top m entries,
  scan os filename top m entries = None
  <-> forallb (fun e => negb (hit os filename top m e)) entries = true.
Proof.
  intros os filename top m entries. split.
  - intros H. pose proof (FilesSpec.scan_first_hit os filename top m entries) as S.
    now rewrite H in S.
  - induction entries as [|[root files] rest IH]; [reflexivity|].
    intros H. simpl in H. apply andb_true_iff in H. destruct H as [Hh Hrest].
    rewrite FilesSpec.scan_cons. apply negb_true_iff in Hh. rewrite Hh.
    now apply IH.
Qed.

Lemma hit_monotone : forall os filename top m m' e,
  (m <= m')%Z ->
  hit os filename top m e = true -> hit os filename top m' e = true.
Proof.
  intros os filename top m m' e Hle. unfold hit.
  rewrite !andb_true_iff, !Z.leb_le. intros [H1 H2]. split; [lia|exact H2].
Qed.

(** X12. With a negative [max_depth] the search finds nothing, whatever
    the directory holds. *)
Theorem negative_depth_finds_nothing :
  forall (os : Os) (filename search_dir : string) (max_depth : Z),
  (max_depth < 0)%Z ->
  find_file os filename search_dir max_depth = None.
Proof.
  intros os filename search_dir m Hneg. unfold find_file.
  apply scan_none_iff, forallb_forall. intros e _.
  apply negb_true_iff. unfold hit.
  destruct (Z.leb_spec (Z.of_nat (depth os (abspath os search_dir) (fst e))) m);
    [lia|reflexivity].
Qed.

Lemma negative_depth_finds_nothing_witness :
  find_file Sample.os "readme.txt" "." (-1) = None.
Proof.
  apply (negative_depth_finds_nothing Sample.os "readme.txt" "." (-1)).
  reflexivity.
Defined.

(** X13. Raising [max_depth] never loses a file: when the search finds
    the name within one bound it finds the name within every larger
    bound; the file found may be another one, earlier in the walk. *)
Theorem deeper_search_still_finds :
  forall (os : Os) (filename search_dir : string) (m m' : Z)
         (found : string * string),
  (m <= m')%Z ->
  find_file os filename search_dir m = Some found ->
  exists found', find_file os filename search_dir m' = Some found'.
Proof.
  intros os filename search_dir m m' found Hle Hf. unfold find_file in *.
  destruct (scan os filename (abspath os search_dir) m'
              (walk os (abspath os search_dir))) as [r|] eqn:E; [eauto|].
  exfalso. apply scan_none_iff in E. rewrite forallb_forall in E.
  pose proof (FilesSpec.scan_first_hit os filename (abspath os search_dir) m
                (walk os (abspath os search_dir))) as S.
  rewrite Hf in S. destruct found as [path root].
  destruct S as (before & files & after & Hw & _ & Hh & _).
  assert (Hin : In (root, files) (walk os (abspath os search_dir)))
    by (rewrite Hw; apply in_or_app; right; now left).
  specialize (E _ Hin). apply negb_true_iff in E.
  rewrite (hit_monotone _ _ _ m m' _ Hle Hh) in E. discriminate.
Qed.

Lemma deeper_search_still_finds_witness :
  exists found', find_file Sample.os "deep.txt" "." 7 = Some found'.
Proof.
  apply (deeper_search_still_finds Sample.os "deep.txt" "." 2 7
           ("/srv/src/a/b/deep.txt", "/srv/src/a/b")).
  - lia.
  - reflexivity.
Defined.

(** X14. When the search finds nothing, the tool answers with the
    not-found message, which names the resolved directory and the depth;
    the answer is the same with and without confirmation and whatever the
    files hold. *)
Theorem missing_file_answer :
  forall (os : Os) (filename search_dir : string) (max_depth : Z),
  find_file os filename
    (Paths.infer_path_from_natural_language os search_dir) max_depth = None ->
  forall (confirm : bool) bytes_of text_of,
    find_and_read_file (with_contents os bytes_of text_of)
      filename search_dir max_depth confirm
    = "File '" ++ filename ++ "' not found in '"
      ++ Paths.infer_path_from_natural_language os search_dir
      ++ "' (searched up to depth " ++ PyStr.of_Z max_depth ++ ").".
Proof.
  intros os filename search_dir m Hf confirm bytes_of text_of.
  unfold find_and_read_file.
  rewrite FilesSpec.infer_path_with_contents,
    FilesSpec.find_file_with_contents, Hf.
  reflexivity.
Qed.

Lemma missing_file_answer_witness :
  find_and_read_file Sample.os "absent.txt" "my documents" 3 true
  = "File 'absent.txt' not found in '/home/yogi/Documents' (searched up to depth 3).".
Proof.
  apply (missing_file_answer Sample.os "absent.txt" "my documents" 3
           eq_refl true (file_bytes Sample.os) (read_text Sample.os)).
Defined.

(** X15. With confirmation, a found file that has a NUL byte among its
    first 512 bytes is answered with the binary notice; what reading the
    file as text would give plays no part. *)
Theorem binary_file_is_not_shown :
  forall (os : Os) (filename search_dir : string) (max_depth : Z)
         (path root : string) (bs : list Byte.byte),
  filename <> "" ->
  find_file os filename
    (Paths.infer_path_from_natural_language os search_dir) max_depth
  = Some (path, root) ->
  file_bytes os path = Some bs ->
  In Byte.x00 (firstn 512 bs) ->
  forall text_of,
    find_and_read_file (with_contents os (file_bytes os) text_of)
      filename search_dir max_depth true
    = "File '" ++ path
      ++ "' appears to be binary or not a text file. "
      ++ "Reading as text is not supported.".
Proof.
  intros os filename search_dir m path root bs Hname Hf Hb Hnul text_of.
  assert (Hpath : String.eqb path "" = false).
  { unfold find_file in Hf.
    match type of Hf with
    | scan _ _ ?top _ ?entries = _ =>
        pose proof (FilesSpec.scan_first_hit os filename top m entries) as H
    end.
    rewrite Hf in H. destruct H as (_ & _ & _ & _ & _ & _ & ->).
    apply String.eqb_neq. now apply FilesSpec.join_nonempty. }
  unfold find_and_read_file.
  rewrite FilesSpec.infer_path_with_contents,
    FilesSpec.find_file_with_contents, Hf, Hpath.
  unfold is_text_file, with_contents. cbn [file_bytes utf8_ok]. rewrite Hb.
  assert (Hex : existsb is_nul (firstn 512 bs) = true).
  { apply existsb_exists. exists Byte.x00. split; [exact Hnul|reflexivity]. }
  rewrite Hex. reflexivity.
Qed.

Lemma binary_file_is_not_shown_witness :
  find_and_read_file Sample.os "blob.bin" "." 5 true
  = "File '/srv/src/blob.bin' appears to be binary or not a text file. Reading as text is not supported.".
Proof.
  apply (binary_file_is_not_shown Sample.os "blob.bin" "." 5
           "/srv/src/blob.bin" "/srv/src" [Byte.x41; Byte.x00; Byte.x42]).
  - discriminate.
  - reflexivity.
  - reflexivity.
  - simpl. tauto.
Defined.

(** X16. The text check looks at the first 512 bytes only: two files
    that start with the same 512 bytes or more get the same verdict,
    whatever follows, a NUL byte included. *)
Theorem text_check_reads_first_block_only :
  forall (os : Os) (path : string) (head rest rest' : list Byte.byte)
         text_of text_of',
  512 <= List.length head ->
  is_text_file
    (with_contents os (fun _ => Some (head ++ rest)%list) text_of) path
  = is_text_file
      (with_contents os (fun _ => Some (head ++ rest')%list) text_of') path.
Proof.
  intros os path head rest rest' text_of text_of' Hlen.
  unfold is_text_file, with_contents. cbn [file_bytes utf8_ok].
  rewrite !firstn_app.
  replace (512 - List.length head) with 0 by lia. reflexivity.
Qed.

Lemma text_check_reads_first_block_only_witness :
  is_text_file
    (with_contents Sample.os
       (fun _ => Some (repeat Byte.x41 512 ++ [Byte.x00])%list)
       (read_text Sample.os)) "/srv/any"
  = is_text_file
      (with_contents Sample.os
         (fun _ => Some (repeat Byte.x41 512 ++ [])%list)
         (read_text Sample.os)) "/srv/any".
Proof.
  apply (text_check_reads_first_block_only Sample.os "/srv/any"
           (repeat Byte.x41 512) [Byte.x00] []).
  rewrite repeat_length. apply le_n.
Defined.

End FilesExtra.

(** ** Password generation, continued *)

Module PasswordExtra.
Import Password.

(** X17. A generated password is never the rejection message: for every
    length of 6 or more and every random source the result differs from
    it, since the message has spaces and a password has none. *)
Theorem password_is_not_the_rejection :
  forall (source : nat -> nat) (length : Z),
  (6 <= length)%Z ->
  generate_password source length <> rejection
  /\ ~ In " "%char (list_ascii_of_string (generate_password source length)).
Proof.
  intros source length Hlen.
  assert (Hno : ~ In " "%char
                  (list_ascii_of_string (generate_password source length))).
  { unfold generate_password. destruct (Z.ltb_spec length 6); [lia|].
    intros Hin.
    pose proof (PasswordSpec.picks_chars source (Z.to_nat length)) as Hall.
    rewrite Forall_forall in Hall. destruct (Hall _ Hin) as [_ Ha].
    discriminate Ha. }
  split; [|exact Hno].
  intros Heq. apply Hno. rewrite Heq. vm_compute. tauto.
Qed.

Lemma password_is_not_the_rejection_witness :
  generate_password (fun k => 3 * k) 44 <> rejection.
Proof.
  apply (password_is_not_the_rejection (fun k => 3 * k) 44). lia.
Defined.

End PasswordExtra.

(** ** Sending mail *)

Module MailExtra.
Import Mail.

(** X18. Without both Gmail credentials in the environment (unset or
    empty) the tool answers with the fixed message and nothing is
    delivered, whatever the server would do. *)
Theorem no_credentials_no_mail :
  forall (env : Environ) (lib : Library) (server : Server)
         (outbox : list Delivery)
         (to_email subject text : string) (cc_email : option string),
  truthy (gmail_user env) = false \/ truthy (gmail_password env) = false ->
  send_email env lib server outbox to_email subject text cc_email
  = ("Gmail credentials not set in environment.", outbox).
Proof.
  intros env lib server outbox to_email subject text cc_email H.
  unfold send_email. destruct H as [H|H]; rewrite H; simpl;
    [reflexivity|now rewrite orb_true_r].
Qed.

Lemma no_credentials_no_mail_witness :
  send_email (mkEnviron (Some "me@gmail.com") (Some "")) careful reliable []
    "you@example.org" "Hi" "Hello" None
  = ("Gmail credentials not set in environment.", []).
Proof.
  apply (no_credentials_no_mail (mkEnviron (Some "me@gmail.com") (Some ""))).
  right. reflexivity.
Defined.





End MailExtra.

(** ** News headlines *)

Module NewsExtra.
Import News.

Lemma titles_all_present : forall ts, titles (map Some ts) = Some ts.
Proof. induction ts as [|t ts IH]; simpl; [reflexivity|now rewrite IH]. Qed.

(** X21. When the API answers with status [ok] and every article has a
    title, a call with a count of 0 or more returns the first [count]
    titles of the feed, in feed order and one per line, never more than
    [count]; it returns [No headlines found.] when that selection is
    empty. *)
Theorem headlines_are_first_count_titles :
  forall (feed : Feed) (all : list string) (count : Z),
  status feed = Some "ok" ->
  articles feed = Some (map Some all) ->
  (0 <= count)%Z ->
  get_news_headlines (Body feed) count
  = match firstn (Z.to_nat count) all with
    | [] => "No headlines found."
    | headlines => PyStr.join PyStr.nl headlines
    end
  /\ (List.length (firstn (Z.to_nat count) all) <= Z.to_nat count)%nat.
Proof.
  intros feed all count Hs Ha Hc. split.
  - unfold get_news_headlines. rewrite Hs, Ha. cbv beta iota.
    rewrite String.eqb_refl.
    unfold slice_to. destruct (Z.ltb_spec count 0); [lia|].
    rewrite firstn_map, titles_all_present.
    destruct (firstn (Z.to_nat count) all); reflexivity.
  - apply firstn_le_length.
Qed.

Lemma headlines_are_first_count_titles_witness :
  get_news_headlines
    (Body (mkFeed (Some "ok") None (Some [Some "A"; Some "B"; Some "C"]))) 2
  = "A" ++ PyStr.nl ++ "B".
Proof.
  apply (headlines_are_first_count_titles
           (mkFeed (Some "ok") None (Some [Some "A"; Some "B"; Some "C"]))
           ["A"; "B"; "C"] 2).
  - reflexivity.
  - reflexivity.
  - lia.
Defined.

End NewsExtra.

(** ** Google Calendar *)

Module CalendarExtra.
Import Calendar.

(** X22. After the credential block went through, the token file holds
    exactly the credentials that the call goes on with, and the services
    are as before. *)
Theorem token_file_holds_used_credentials :
  forall (g g1 : Google) (c : Creds),
  authorize g = Some (c, g1) ->
  token_pickle g1 = Some c
  /\ refresh g1 = refresh g /\ consent g1 = consent g
  /\ list_events g1 = list_events g /\ insert_event g1 = insert_event g.
Proof.
  intros g g1 c H. unfold authorize in H.
  destruct (token_pickle g) as [c0|] eqn:Et.
  - destruct (valid c0).
    + injection H as <- <-. auto.
    + destruct (expired c0 && Mail.truthy (refresh_token c0)).
      * destruct (refresh g c0); [|discriminate].
        injection H as <- <-. simpl. auto.
      * destruct (consent g) eqn:Ec; [|discriminate].
        injection H as <- <-. simpl. auto.
  - destruct (consent g) eqn:Ec; [|discriminate].
    injection H as <- <-. simpl. auto.
Qed.

Lemma token_file_holds_used_credentials_witness :
  token_pickle (store stale (mkCreds "t1" true false (Some "r0")))
  = Some (mkCreds "t1" true false (Some "r0")).
Proof.
  apply (token_file_holds_used_credentials stale
           (store stale (mkCreds "t1" true false (Some "r0")))
           (mkCreds "t1" true false (Some "r0"))).
  reflexivity.
Defined.

(** X23. With valid credentials in the token file neither calendar tool
    writes the token file, refreshes or asks for consent: Google is left
    as it was, and the credential block hands on the stored credentials
    whatever refreshing or consent would give. *)
Theorem valid_token_is_reused :
  forall (g : Google) (c : Creds),
  token_pickle g = Some c -> valid c = true ->
  authorize g = Some (c, g)
  /\ (forall days, snd (get_calendar_events g days) = g)
  /\ (forall summary start_time end_time description,
        snd (add_calendar_event g summary start_time end_time description)
        = g).
Proof.
  intros g c Ht Hv.
  assert (Ha : authorize g = Some (c, g))
    by (unfold authorize; now rewrite Ht, Hv).
  split; [exact Ha|]. split.
  - intros [n|]; [|reflexivity]. unfold get_calendar_events. rewrite Ha.
    destruct (list_events g c n) as [[|e events]|err]; try reflexivity.
    destruct (event_lines (e :: events)); reflexivity.
  - intros summary start_time end_time description.
    unfold add_calendar_event.
    destruct (negb (Mail.truthy summary)); [reflexivity|].
    destruct (negb (Mail.truthy start_time)); [reflexivity|].
    destruct (negb (Mail.truthy end_time)); [reflexivity|].
    rewrite Ha. destruct (insert_event g c _); reflexivity.
Qed.

Lemma valid_token_is_reused_witness :
  authorize signed_in
  = Some (mkCreds "t0" true false (Some "r0"), signed_in).
Proof.
  apply (valid_token_is_reused signed_in
           (mkCreds "t0" true false (Some "r0"))); reflexivity.
Defined.

(** X24. Renewal is done once: when the credential block went through
    with credentials that are valid, the credential block of the next
    call hands on the same credentials and leaves Google as it is. *)
Theorem renewed_token_serves_next_call :
  forall (g g1 : Google) (c : Creds),
  authorize g = Some (c, g1) -> valid c = true ->
  authorize g1 = Some (c, g1).
Proof.
  intros g g1 c H Hv.
  assert (Ht : token_pickle g1 = Some c).
  { unfold authorize in H.
    destruct (token_pickle g) as [c0|] eqn:Et.
    - destruct (valid c0).
      + now injection H as <- <-.
      + destruct (expired c0 && Mail.truthy (refresh_token c0)).
        * destruct (refresh g c0); [|discriminate].
          now injection H as <- <-.
        * destruct (consent g); [|discriminate]. now injection H as <- <-.
    - destruct (consent g); [|discriminate]. now injection H as <- <-. }
  unfold authorize. now rewrite Ht, Hv.
Qed.

Lemma renewed_token_serves_next_call_witness :
  let c := mkCreds "t1" true false (Some "r0") in
  authorize (store stale c) = Some (c, store stale c).
Proof.
  apply (renewed_token_serves_next_call stale); reflexivity.
Defined.

(** X25. The credential block is outside the [try] of both calendar
    tools: when there are no usable credentials and the consent flow
    raises, the exception leaves the tool, no answer is returned, and
    the token file is as before. *)
Theorem failed_consent_escapes :
  forall (g : Google) (n : Z) (summary start_time end_time : string)
         (description : string),
  token_pickle g = None -> consent g = None ->
  summary <> "" -> start_time <> "" -> end_time <> "" ->
  get_calendar_events g (Some n) = (Escaped, g)
  /\ add_calendar_event g (Some summary) (Some start_time) (Some end_time)
       description
     = (Escaped, g).
Proof.
  intros g n summary start_time end_time description Ht Hc Hs Hb He.
  assert (Ha : authorize g = None)
    by (unfold authorize; now rewrite Ht, Hc).
  split.
  - unfold get_calendar_events. now rewrite Ha.
  - unfold add_calendar_event, Mail.truthy.
    apply String.eqb_neq in Hs, Hb, He. rewrite Hs, Hb, He. simpl.
    now rewrite Ha.
Qed.

Lemma failed_consent_escapes_witness :
  get_calendar_events signed_out (Some 10%Z) = (Escaped, signed_out)
  /\ add_calendar_event signed_out (Some "Standup")
       (Some "2025-07-22T15:00:00+05:30") (Some "2025-07-22T16:00:00+05:30")
       ""
     = (Escaped, signed_out).
Proof.
  apply (failed_consent_escapes signed_out 10%Z "Standup"
           "2025-07-22T15:00:00+05:30" "2025-07-22T16:00:00+05:30" "");
    (reflexivity || discriminate).
Defined.

Lemma event_lines_complete : forall events,
  Forall (fun e => start e <> None /\ summary e <> None) events ->
  exists lines,
    event_lines events = inr lines
    /\ Forall2 (fun e l => exists s t,
                  start e = Some s /\ summary e = Some t
                  /\ l = start_text s ++ ": " ++ t) events lines.
Proof.
  induction events as [|e events IH]; intros H.
  - exists []. split; [reflexivity|constructor].
  - inversion H as [|e' l' [Hs Ht] Hrest]; subst.
    destruct (IH Hrest) as (lines & Hl & Hall).
    destruct (start e) as [s|] eqn:Es; [|congruence].
    destruct (summary e) as [t|] eqn:Et; [|congruence].
    exists ((start_text s ++ ": " ++ t) :: lines). split.
    + simpl. now rewrite Es, Et, Hl.
    + constructor; [|exact Hall]. exists s, t. auto.
Qed.

(** X26. When the credential block went through and the API returns
    events that all have a start and a summary, the answer is the header
    line followed by one line per event, in the order of the API, each
    reading [start: summary] with the date-time preferred over the date.
    With no event the answer is the fixed [No upcoming events] text. *)
Theorem events_are_listed_in_order :
  forall (g g1 : Google) (c : Creds) (n : Z) (events : list Event),
  authorize g = Some (c, g1) ->
  list_events g1 c n = Items events ->
  Forall (fun e => start e <> None /\ summary e <> None) events ->
  exists lines,
    Forall2 (fun e l => exists s t,
               start e = Some s /\ summary e = Some t
               /\ l = start_text s ++ ": " ++ t) events lines
    /\ fst (get_calendar_events g (Some n))
       = Answer
           (match events with
            | [] => "No upcoming events found in the next "
                    ++ PyStr.of_Z n ++ " day(s)."
            | _ => PyStr.join PyStr.nl
                     (("Here are your events for the next "
                       ++ PyStr.of_Z n ++ " day(s):") :: lines)
            end).
Proof.
  intros g g1 c n events Ha Hl Hall.
  destruct (event_lines_complete events Hall) as (lines & He & H2).
  exists lines. split; [exact H2|].
  unfold get_calendar_events. rewrite Ha, Hl.
  destruct events as [|e events]; [reflexivity|].
  now rewrite He.
Qed.

Lemma events_are_listed_in_order_witness :
  fst (get_calendar_events signed_in (Some 3%Z))
  = Answer ("Here are your events for the next 3 day(s):" ++ PyStr.nl
            ++ "2025-07-22T15:00:00+05:30: Standup" ++ PyStr.nl
            ++ "2025-07-23: Holiday").
Proof.
  destruct (events_are_listed_in_order signed_in signed_in
              (mkCreds "t0" true false (Some "r0")) 3%Z
              [ mkEvent (Some (Some "2025-07-22T15:00:00+05:30", None))
                  (Some "Standup");
                mkEvent (Some (None, Some "2025-07-23")) (Some "Holiday") ])
    as (lines & _ & Hanswer).
  - reflexivity.
  - reflexivity.
  - repeat constructor; discriminate.
  - reflexivity.
Defined.

End CalendarExtra.
